(** * fs/crypto/policy.c: encryption policy functions for per-file encryption

    A shallow embedding of the policy functions of [fs/crypto/policy.c]
    (the MediaTek hardware-inline-encryption variant) and the properties
    of the policy lifecycle that follow from the code.

    Conventions of the embedding:
    - a [u8] / [int] value is a [Z]; a store into a [u8] field that may
      truncate is written with [u8];
    - a byte array is a [list Z];
    - a pointer that may be NULL is an [option];
    - the storage and key collaborators reached through [inode->i_sb->s_cop]
      and through other translation units are fields of the class [kernel];
      the state they read and write is threaded explicitly as a [disk];
    - errno values, file-type bits, the context layout and the two
      content modes named by number in the ABI are given their values; the
      vendor constants of headers outside this translation unit (the
      hardware-private mode, the IV_INO_LBLK_32 flag, the valid-flag mask,
      the block-layer constants) are fields of [kernel] too, so every
      general theorem holds whatever their values are. *)

From Stdlib Require Import ZArith List Bool Lia.
Import ListNotations.
Local Open Scope Z_scope.

(** ** Machine integers and libc helpers *)

Definition u8 (z : Z) : Z := z mod 2 ^ 8.

Definition b2z (b : bool) : Z := if b then 1 else 0.

(** [memcmp(s1, s2, n)]: bytes beyond the end of a list read as 0, the
    arrays compared in this file all have [n] bytes. *)
Fixpoint memcmp (s1 s2 : list Z) (n : nat) : Z :=
  match n with
  | O => 0
  | S n' =>
      let c1 := hd 0 s1 in
      let c2 := hd 0 s2 in
      if c1 =? c2 then memcmp (tl s1) (tl s2) n' else c1 - c2
  end.

(** [memcpy(dst, src, n)] into an [n]-byte array. *)
Definition memcpy (src : list Z) (n : nat) : list Z := firstn n src.

(** ** errno values (asm-generic) *)

Definition ENOENT : Z := 2.
Definition EACCES : Z := 13.
Definition EFAULT : Z := 14.
Definition EEXIST : Z := 17.
Definition ENOTDIR : Z := 20.
Definition EINVAL : Z := 22.
Definition ERANGE : Z := 34.
Definition ENOTEMPTY : Z := 39.
Definition ENODATA : Z := 61.
Definition ENOKEY : Z := 126.

(** ** File types and inode flags (POSIX / linux/fs.h) *)

Definition S_IFMT : Z := 61440.   (* 0170000 *)
Definition S_IFLNK : Z := 40960.  (* 0120000 *)
Definition S_IFREG : Z := 32768.  (* 0100000 *)
Definition S_IFDIR : Z := 16384.  (* 0040000 *)

Definition S_ISLNK (m : Z) : bool := Z.land m S_IFMT =? S_IFLNK.
Definition S_ISREG (m : Z) : bool := Z.land m S_IFMT =? S_IFREG.
Definition S_ISDIR (m : Z) : bool := Z.land m S_IFMT =? S_IFDIR.

Definition S_DEAD : Z := 16.
Definition S_ENCRYPTED : Z := 16384.

(** ** Policy, context and crypt-info records *)

Definition FS_KEY_DESCRIPTOR_SIZE : nat := 8.
Definition FS_KEY_DERIVATION_NONCE_SIZE : nat := 16.
Definition FS_ENCRYPTION_CONTEXT_FORMAT_V1 : Z := 1.
Definition FS_ENCRYPTION_MODE_INVALID : Z := 0.
Definition FS_ENCRYPTION_MODE_AES_256_XTS : Z := 1.

Module Policy.
Record t : Type := mk {
  version : Z;
  contents_encryption_mode : Z;
  filenames_encryption_mode : Z;
  flags : Z;
  master_key_descriptor : list Z
}.
End Policy.
Abbreviation fscrypt_policy := Policy.t.

Module Ctx.
Record t : Type := mk {
  format : Z;
  contents_encryption_mode : Z;
  filenames_encryption_mode : Z;
  flags : Z;
  master_key_descriptor : list Z;
  nonce : list Z
}.

(** [c.contents_encryption_mode = m] *)
Definition set_contents_encryption_mode (c : t) (m : Z) : t :=
  mk (format c) m (filenames_encryption_mode c) (flags c)
     (master_key_descriptor c) (nonce c).
End Ctx.
Abbreviation fscrypt_context := Ctx.t.

(** [sizeof(struct fscrypt_context)]: four [u8] fields, the descriptor and
    the nonce. *)
Definition sizeof_fscrypt_context : Z :=
  4 + Z.of_nat FS_KEY_DESCRIPTOR_SIZE + Z.of_nat FS_KEY_DERIVATION_NONCE_SIZE.

Record fscrypt_info : Type := mk_fscrypt_info {
  ci_data_mode : Z;
  ci_filename_mode : Z;
  ci_flags : Z;
  ci_master_key_descriptor : list Z;
  ci_raw_key : list Z;
  ci_hashed_info : Z
}.

(** ** Inodes, files and block requests *)

Record super_block : Type := mk_super_block { s_dev : Z }.

Record inode : Type := mk_inode {
  i_ino : Z;
  i_mode : Z;
  i_flags : Z;
  i_sb : super_block;
  i_crypt_info : option fscrypt_info
}.

Definition IS_DEADDIR (i : inode) : bool :=
  negb (Z.land (i_flags i) S_DEAD =? 0).
Definition IS_ENCRYPTED (i : inode) : bool :=
  negb (Z.land (i_flags i) S_ENCRYPTED =? 0).

Record file : Type := mk_file { f_inode : inode }.
Definition file_inode (f : file) : inode := f_inode f.

Record bio_crypt_ctx : Type := mk_bio_crypt_ctx {
  bc_flags : Z;
  bc_key_size : Z;
  bc_ino : Z;
  bc_sb : option super_block;
  bc_info_act : bool;                 (* handler installed or not *)
  bc_info : option fscrypt_info;
  hashed_info : Z
}.

Record bio : Type := mk_bio { bi_crypt_ctx : bio_crypt_ctx }.

(** The two [WARN_ON] sites of [fscrypt_set_bio_ctx]. *)
Inductive warning : Type :=
| WARN_hie_not_capable
| WARN_no_bc_info.

(** ** The collaborators *)

(** [struct fscrypt_operations]: the storage collaborator.  [get_context]
    returns its result and the buffer as it stands after the call;
    [set_context] returns its result and the storage as it stands after. *)
Record fscrypt_operations (disk : Type) : Type := mk_fscrypt_operations {
  get_context : disk -> inode -> Z -> Z * fscrypt_context;
  set_context : disk -> inode -> fscrypt_context -> Z -> option Z -> Z * disk;
  empty_dir : disk -> inode -> bool
}.
Arguments get_context {disk}.
Arguments set_context {disk}.
Arguments empty_dir {disk}.

Class kernel : Type := mk_kernel {
  (* storage *)
  disk : Type;
  s_cop : super_block -> fscrypt_operations disk;
  (* linux/fs.h, linux/hie.h, fscrypt_private.h constants *)
  FS_ENCRYPTION_MODE_PRIVATE : Z;
  FS_POLICY_FLAG_IV_INO_LBLK_32 : Z;
  FS_POLICY_FLAGS_VALID : Z;
  FS_AES_256_XTS_KEY_SIZE : Z;
  BC_CRYPT : Z;
  BC_AES_256_XTS : Z;
  BIO_BC_INFO_GET : Z;
  CONFIG_MTK_EMMC_HW_CQ : bool;
  (* functions of other translation units *)
  hie_is_capable : super_block -> bool;
  fscrypt_valid_enc_modes : Z -> Z -> bool;
  fscrypt_data_crypt_mode : inode -> Z -> Z;
  fscrypt_get_encryption_info : disk -> inode -> Z * inode;
  fscrypt_crypt_info_act : fscrypt_info -> Z -> option fscrypt_info;
  inode_owner_or_capable : inode -> bool;
  mnt_want_write_file : file -> Z;
  get_boot_type : Z;
  bio_bcf_set : bio -> Z -> bio;
  bio_bcf_clear : bio -> Z -> bio
}.

Section PolicyFunctions.

Context {K : kernel}.

(** ** is_encryption_context_consistent_with_policy *)

Definition is_encryption_context_consistent_with_policy
    (ctx : fscrypt_context) (policy : fscrypt_policy) (inode : inode) : bool :=
  if negb (Ctx.contents_encryption_mode ctx =?
           Policy.contents_encryption_mode policy)
     && negb (hie_is_capable (i_sb inode)
              && (Ctx.contents_encryption_mode ctx =?
                  FS_ENCRYPTION_MODE_PRIVATE))
  then false
  else
    (memcmp (Ctx.master_key_descriptor ctx)
            (Policy.master_key_descriptor policy)
            FS_KEY_DESCRIPTOR_SIZE =? 0)
    && (Ctx.flags ctx =? Policy.flags policy)
    && (Ctx.filenames_encryption_mode ctx =?
        Policy.filenames_encryption_mode policy).

(** ** create_encryption_context_from_policy

    [nonce] is what [get_random_bytes] draws. *)

Definition create_encryption_context_from_policy
    (d : disk) (inode : inode) (policy : fscrypt_policy) (nonce : list Z)
  : Z * disk :=
  if negb (fscrypt_valid_enc_modes
             (Policy.contents_encryption_mode policy)
             (Policy.filenames_encryption_mode policy))
  then (- EINVAL, d)
  else if negb (Z.land (Policy.flags policy)
                       (Z.lnot FS_POLICY_FLAGS_VALID) =? 0)
  then (- EINVAL, d)
  else if negb (Z.land (Policy.flags policy)
                       FS_POLICY_FLAG_IV_INO_LBLK_32 =? 0)
          && negb (Policy.contents_encryption_mode policy =?
                   FS_ENCRYPTION_MODE_PRIVATE)
  then (- EINVAL, d)
  else
    let ctx :=
      Ctx.mk FS_ENCRYPTION_CONTEXT_FORMAT_V1
             (u8 (fscrypt_data_crypt_mode
                    inode (Policy.contents_encryption_mode policy)))
             (Policy.filenames_encryption_mode policy)
             (Policy.flags policy)
             (memcpy (Policy.master_key_descriptor policy)
                     FS_KEY_DESCRIPTOR_SIZE)
             (memcpy nonce FS_KEY_DERIVATION_NONCE_SIZE) in
    set_context (s_cop (i_sb inode)) d inode ctx sizeof_fscrypt_context None.

(** ** fscrypt_ioctl_set_policy

    [arg] is the user pointer: [None] when [copy_from_user] faults.  The
    inode lock and the write access to the mount are taken and released
    around the read-check-write sequence; they carry no data. *)

Definition fscrypt_ioctl_set_policy
    (d : disk) (filp : file) (arg : option fscrypt_policy) (nonce : list Z)
  : Z * disk :=
  let inode := file_inode filp in
  match arg with
  | None => (- EFAULT, d)
  | Some policy =>
      if negb (inode_owner_or_capable inode) then (- EACCES, d)
      else if negb (Policy.version policy =? 0) then (- EINVAL, d)
      else
        let ret := mnt_want_write_file filp in
        if negb (ret =? 0) then (ret, d)
        else
          let '(ret, ctx) :=
            get_context (s_cop (i_sb inode)) d inode sizeof_fscrypt_context in
          if ret =? - ENODATA then
            if negb (S_ISDIR (i_mode inode)) then (- ENOTDIR, d)
            else if IS_DEADDIR inode then (- ENOENT, d)
            else if negb (empty_dir (s_cop (i_sb inode)) d inode)
            then (- ENOTEMPTY, d)
            else create_encryption_context_from_policy d inode policy nonce
          else if (ret =? sizeof_fscrypt_context)
                  && is_encryption_context_consistent_with_policy
                       ctx policy inode
          then (0, d)
          else if (0 <=? ret) || (ret =? - ERANGE) then (- EEXIST, d)
          else (ret, d)
  end.

(** ** fscrypt_ioctl_get_policy

    [arg_ok] tells whether the user pointer can be written ([copy_to_user]
    succeeds); the second component is what was copied out. *)

Definition fscrypt_ioctl_get_policy
    (d : disk) (filp : file) (arg_ok : bool) : Z * option fscrypt_policy :=
  let inode := file_inode filp in
  if negb (IS_ENCRYPTED inode) then (- ENODATA, None)
  else
    let '(res, ctx) :=
      get_context (s_cop (i_sb inode)) d inode sizeof_fscrypt_context in
    if (res <? 0) && negb (res =? - ERANGE) then (res, None)
    else if negb (res =? sizeof_fscrypt_context) then (- EINVAL, None)
    else if negb (Ctx.format ctx =? FS_ENCRYPTION_CONTEXT_FORMAT_V1)
    then (- EINVAL, None)
    else
      let contents_encryption_mode :=
        (* in compliance with android *)
        if S_ISDIR (i_mode inode)
           && negb (Ctx.contents_encryption_mode ctx =?
                    FS_ENCRYPTION_MODE_INVALID)
        then FS_ENCRYPTION_MODE_AES_256_XTS
        else Ctx.contents_encryption_mode ctx in
      let policy :=
        Policy.mk 0 contents_encryption_mode
                  (Ctx.filenames_encryption_mode ctx)
                  (Ctx.flags ctx)
                  (memcpy (Ctx.master_key_descriptor ctx)
                          FS_KEY_DESCRIPTOR_SIZE) in
      if negb arg_ok then (- EFAULT, None) else (0, Some policy).

(** ** fscrypt_has_permitted_context *)

(** The comparison of the two resolved infos (the [parent_ci && child_ci]
    branch). *)
Definition crypt_infos_same_policy (parent_ci child_ci : fscrypt_info) : bool :=
  (memcmp (ci_master_key_descriptor parent_ci)
          (ci_master_key_descriptor child_ci)
          FS_KEY_DESCRIPTOR_SIZE =? 0)
  && (ci_data_mode parent_ci =? ci_data_mode child_ci)
  && (ci_filename_mode parent_ci =? ci_filename_mode child_ci)
  && (Z.land (ci_flags parent_ci) (Z.lnot FS_POLICY_FLAG_IV_INO_LBLK_32) =?
      Z.land (ci_flags child_ci) (Z.lnot FS_POLICY_FLAG_IV_INO_LBLK_32)).

(** The comparison of the two stored contexts (the final [return]). *)
Definition contexts_same_policy (parent_ctx child_ctx : fscrypt_context) : bool :=
  (memcmp (Ctx.master_key_descriptor parent_ctx)
          (Ctx.master_key_descriptor child_ctx)
          FS_KEY_DESCRIPTOR_SIZE =? 0)
  && (Ctx.contents_encryption_mode parent_ctx =?
      Ctx.contents_encryption_mode child_ctx)
  && (Ctx.filenames_encryption_mode parent_ctx =?
      Ctx.filenames_encryption_mode child_ctx)
  && (Z.land (Ctx.flags parent_ctx) (Z.lnot FS_POLICY_FLAG_IV_INO_LBLK_32) =?
      Z.land (Ctx.flags child_ctx) (Z.lnot FS_POLICY_FLAG_IV_INO_LBLK_32)).

Definition fscrypt_has_permitted_context
    (d : disk) (parent child : inode) : Z :=
  let cops := s_cop (i_sb parent) in
  (* No restrictions on file types which are never encrypted *)
  if negb (S_ISREG (i_mode child)) && negb (S_ISDIR (i_mode child))
     && negb (S_ISLNK (i_mode child))
  then 1
  (* No restrictions if the parent directory is unencrypted *)
  else if negb (IS_ENCRYPTED parent) then 1
  (* Encrypted directories must not contain unencrypted files *)
  else if negb (IS_ENCRYPTED child) then 0
  else
    let '(res, parent) := fscrypt_get_encryption_info d parent in
    if negb (res =? 0) then 0
    else
      let '(res, child) := fscrypt_get_encryption_info d child in
      if negb (res =? 0) then 0
      else
        match i_crypt_info parent, i_crypt_info child with
        | Some parent_ci, Some child_ci =>
            b2z (crypt_infos_same_policy parent_ci child_ci)
        | _, _ =>
            let '(res, parent_ctx) :=
              get_context cops d parent sizeof_fscrypt_context in
            if negb (res =? sizeof_fscrypt_context) then 0
            else
              let '(res, child_ctx) :=
                get_context cops d child sizeof_fscrypt_context in
              if negb (res =? sizeof_fscrypt_context) then 0
              else
                let parent_ctx :=
                  Ctx.set_contents_encryption_mode parent_ctx
                    (u8 (fscrypt_data_crypt_mode
                           parent (Ctx.contents_encryption_mode parent_ctx))) in
                let child_ctx :=
                  Ctx.set_contents_encryption_mode child_ctx
                    (u8 (fscrypt_data_crypt_mode
                           child (Ctx.contents_encryption_mode child_ctx))) in
                b2z (contexts_same_policy parent_ctx child_ctx)
        end.

(** ** fscrypt_force_iv_ino_lblk_32 *)

Definition BOOTDEV_SDMMC : Z := 1.
Definition BOOTDEV_UFS : Z := 2.

Definition fscrypt_force_iv_ino_lblk_32 : bool :=
  if CONFIG_MTK_EMMC_HW_CQ then get_boot_type =? BOOTDEV_SDMMC else false.

(** ** fscrypt_inherit_context *)

Definition fscrypt_inherit_context
    (d : disk) (parent child : inode) (fs_data : option Z) (preload : bool)
    (nonce : list Z) : Z * disk :=
  let '(res, parent) := fscrypt_get_encryption_info d parent in
  if res <? 0 then (res, d)
  else
    match i_crypt_info parent with
    | None => (- ENOKEY, d)
    | Some ci =>
        let contents_encryption_mode := ci_data_mode ci in
        let flags := ci_flags ci in
        (* only for emmc device, add FS_POLICY_FLAG_IV_INO_LBLK_32 *)
        let flags :=
          if (contents_encryption_mode =? FS_ENCRYPTION_MODE_PRIVATE)
             && fscrypt_force_iv_ino_lblk_32
          then u8 (Z.lor flags FS_POLICY_FLAG_IV_INO_LBLK_32)
          else flags in
        let ctx :=
          Ctx.mk FS_ENCRYPTION_CONTEXT_FORMAT_V1
                 contents_encryption_mode
                 (ci_filename_mode ci)
                 flags
                 (memcpy (ci_master_key_descriptor ci) FS_KEY_DESCRIPTOR_SIZE)
                 (memcpy nonce FS_KEY_DERIVATION_NONCE_SIZE) in
        let '(res, d) :=
          set_context (s_cop (i_sb parent)) d child ctx
                      sizeof_fscrypt_context fs_data in
        if negb (res =? 0) then (res, d)
        else if preload then (fst (fscrypt_get_encryption_info d child), d)
        else (0, d)
    end.

(** ** fscrypt_set_bio_ctx

    Returns the result, the request as it stands after the call and the
    warnings raised. *)

Definition fscrypt_set_bio_ctx (inode_ptr : option inode) (bio_ptr : option bio)
  : Z * option bio * list warning :=
  let ret := - ENOENT in
  match inode_ptr, bio_ptr with
  | Some inode, Some bio =>
      match (if S_ISREG (i_mode inode) then i_crypt_info inode else None) with
      | Some ci =>
          if ci_data_mode ci =? FS_ENCRYPTION_MODE_PRIVATE then
            let w1 :=
              if negb (hie_is_capable (i_sb inode))
              then [WARN_hie_not_capable] else [] in
            (* HIE: default use aes-256-xts *)
            let bio := bio_bcf_set bio (Z.lor BC_CRYPT BC_AES_256_XTS) in
            let bc := bi_crypt_ctx bio in
            let bc :=
              mk_bio_crypt_ctx
                (bc_flags bc)
                FS_AES_256_XTS_KEY_SIZE
                (i_ino inode)
                (Some (i_sb inode))
                true
                (fscrypt_crypt_info_act ci BIO_BC_INFO_GET)
                (ci_hashed_info ci) in
            let w2 :=
              match bc_info bc with
              | None => [WARN_no_bc_info]
              | Some _ => []
              end in
            (0, Some (mk_bio bc), w1 ++ w2)
          else (ret, Some (bio_bcf_clear bio BC_CRYPT), [])
      | None => (ret, Some (bio_bcf_clear bio BC_CRYPT), [])
      end
  | _, _ => (ret, bio_ptr, [])
  end.

(** ** fscrypt_key_payload

    [want_key] tells whether the [key] out-pointer is non-NULL; the second
    component is what is stored through it. *)

Definition fscrypt_key_payload (ctx : bio_crypt_ctx) (want_key : bool)
  : Z * option (list Z) :=
  match bc_info ctx with
  | None => (- ENOKEY, None)
  | Some fi =>
      (bc_key_size ctx, if want_key then Some (ci_raw_key fi) else None)
  end.

(** ** fscrypt_is_hw_encrypt, fscrypt_is_sw_encrypt *)

Definition fscrypt_is_hw_encrypt (i : inode) : bool :=
  S_ISREG (i_mode i)
  && match i_crypt_info i with
     | Some ci => ci_data_mode ci =? FS_ENCRYPTION_MODE_PRIVATE
     | None => false
     end.

Definition fscrypt_is_sw_encrypt (i : inode) : bool :=
  S_ISREG (i_mode i)
  && match i_crypt_info i with
     | Some ci =>
         negb (ci_data_mode ci =? FS_ENCRYPTION_MODE_INVALID)
         && negb (ci_data_mode ci =? FS_ENCRYPTION_MODE_PRIVATE)
     | None => false
     end.

End PolicyFunctions.

(** ** The comparison rule as the specification words it

    [sameEffectivePolicy a b maskedFlags]: descriptors byte-equal, filename
    modes equal, flags equal once both are ANDed with the complement of
    [maskedFlags], and content modes equal, except that a stored
    hardware-private mode equals any declared mode on a filesystem capable
    of hardware inline encryption.  Kept apart from the code's comparators,
    to be compared with them. *)

Definition sameEffectivePolicy {K : kernel} (hardwareCapable : bool)
    (a : fscrypt_context) (b : fscrypt_policy) (maskedFlags : Z) : bool :=
  (memcmp (Ctx.master_key_descriptor a) (Policy.master_key_descriptor b)
          FS_KEY_DESCRIPTOR_SIZE =? 0)
  && (Ctx.filenames_encryption_mode a =? Policy.filenames_encryption_mode b)
  && (Z.land (Ctx.flags a) (Z.lnot maskedFlags) =?
      Z.land (Policy.flags b) (Z.lnot maskedFlags))
  && ((Ctx.contents_encryption_mode a =? Policy.contents_encryption_mode b)
      || (hardwareCapable
          && (Ctx.contents_encryption_mode a =? FS_ENCRYPTION_MODE_PRIVATE))).

(** The stored-versus-proposed comparator of the code, read as a
    proposition. *)
Definition consistent_with_policy {K : kernel}
    (ctx : fscrypt_context) (policy : fscrypt_policy) (inode : inode) : Prop :=
  memcmp (Ctx.master_key_descriptor ctx) (Policy.master_key_descriptor policy)
         FS_KEY_DESCRIPTOR_SIZE = 0
  /\ Ctx.filenames_encryption_mode ctx = Policy.filenames_encryption_mode policy
  /\ Ctx.flags ctx = Policy.flags policy
  /\ (Ctx.contents_encryption_mode ctx = Policy.contents_encryption_mode policy
      \/ (hie_is_capable (i_sb inode) = true
          /\ Ctx.contents_encryption_mode ctx = FS_ENCRYPTION_MODE_PRIVATE)).

(** The policy fields of a stored context read as a policy, and a policy
    read as a stored context: what it takes to exchange the two sides of
    the stored-versus-proposed comparison. *)
Definition policy_of_context (c : fscrypt_context) : fscrypt_policy :=
  Policy.mk 0 (Ctx.contents_encryption_mode c)
            (Ctx.filenames_encryption_mode c) (Ctx.flags c)
            (Ctx.master_key_descriptor c).

Definition context_of_policy (p : fscrypt_policy) (nonce : list Z)
  : fscrypt_context :=
  Ctx.mk FS_ENCRYPTION_CONTEXT_FORMAT_V1 (Policy.contents_encryption_mode p)
         (Policy.filenames_encryption_mode p) (Policy.flags p)
         (Policy.master_key_descriptor p) nonce.

(** ** A sample kernel

    An in-memory collaborator used to run the functions above: the storage
    is an association list from inode number to what [get_context] answers
    for it, the key ring is empty, and the header constants have sample
    values (hardware-private mode 127, IV_INO_LBLK_32 flag 0x10). *)

Module Sample.

Definition store : Type := list (Z * (Z * fscrypt_context)).

Definition no_context : fscrypt_context := Ctx.mk 0 0 0 0 [] [].

Fixpoint lookup (d : store) (ino : Z) : Z * fscrypt_context :=
  match d with
  | [] => (- ENODATA, no_context)
  | (i, r) :: d' => if i =? ino then r else lookup d' ino
  end.

Definition cops : fscrypt_operations store :=
  mk_fscrypt_operations store
    (fun d inode _ => lookup d (i_ino inode))
    (fun d inode ctx len _ => (0, (i_ino inode, (len, ctx)) :: d))
    (fun _ _ => true).

Definition MODE_PRIVATE : Z := 127.
Definition MODE_AES_256_CTS : Z := 4.
Definition FLAG_IV_INO_LBLK_32 : Z := 16.
(** The padding bits, DIRECT_KEY and IV_INO_LBLK_32. *)
Definition FLAGS_VALID : Z := 23.

(** Modelled from the spec: [fscrypt_data_crypt_mode] is defined outside
    this translation unit; section 4.3 has the stored mode become
    hardware-private when the filesystem is hardware-capable and a mode is
    declared, and section 4.2 calls the hardware path a silent substitution
    for the declared mode. *)
Definition data_crypt_mode (hie : bool) (mode : Z) : Z :=
  if mode =? FS_ENCRYPTION_MODE_INVALID then FS_ENCRYPTION_MODE_INVALID
  else if hie then MODE_PRIVATE
  else mode.

Definition valid_enc_modes (contents_mode filenames_mode : Z) : bool :=
  ((contents_mode =? FS_ENCRYPTION_MODE_AES_256_XTS)
   || (contents_mode =? MODE_PRIVATE))
  && (filenames_mode =? MODE_AES_256_CTS).

(** Without keys: an inode keeps the info it has; resolving another one
    succeeds without an info when its stored context is well formed. *)
Definition get_encryption_info (d : store) (i : inode) : Z * inode :=
  match i_crypt_info i with
  | Some _ => (0, i)
  | None =>
      let '(res, ctx) := lookup d (i_ino i) in
      if res <? 0 then (res, i)
      else if negb (res =? sizeof_fscrypt_context) then (- EINVAL, i)
      else if negb (Ctx.format ctx =? FS_ENCRYPTION_CONTEXT_FORMAT_V1)
      then (- EINVAL, i)
      else (0, i)
  end.

Definition bcf_set (b : bio) (f : Z) : bio :=
  let bc := bi_crypt_ctx b in
  mk_bio (mk_bio_crypt_ctx (Z.lor (bc_flags bc) f) (bc_key_size bc)
            (bc_ino bc) (bc_sb bc) (bc_info_act bc) (bc_info bc)
            (hashed_info bc)).

Definition bcf_clear (b : bio) (f : Z) : bio :=
  let bc := bi_crypt_ctx b in
  mk_bio (mk_bio_crypt_ctx (Z.land (bc_flags bc) (Z.lnot f)) (bc_key_size bc)
            (bc_ino bc) (bc_sb bc) (bc_info_act bc) (bc_info bc)
            (hashed_info bc)).

(** [hie]: the filesystem is capable of hardware inline encryption;
    [emmc]: eMMC command queueing is configured and the boot device is
    eMMC; [info_get]: taking a reference on a resolved info succeeds. *)
Definition machine (hie emmc info_get : bool) : kernel :=
  {| disk := store;
     s_cop := fun _ => cops;
     FS_ENCRYPTION_MODE_PRIVATE := MODE_PRIVATE;
     FS_POLICY_FLAG_IV_INO_LBLK_32 := FLAG_IV_INO_LBLK_32;
     FS_POLICY_FLAGS_VALID := FLAGS_VALID;
     FS_AES_256_XTS_KEY_SIZE := 64;
     BC_CRYPT := 1;
     BC_AES_256_XTS := 16;
     BIO_BC_INFO_GET := 1;
     CONFIG_MTK_EMMC_HW_CQ := emmc;
     hie_is_capable := fun _ => hie;
     fscrypt_valid_enc_modes := valid_enc_modes;
     fscrypt_data_crypt_mode := fun _ mode => data_crypt_mode hie mode;
     fscrypt_get_encryption_info := get_encryption_info;
     fscrypt_crypt_info_act := fun ci _ => if info_get then Some ci else None;
     inode_owner_or_capable := fun _ => true;
     mnt_want_write_file := fun _ => 0;
     get_boot_type := if emmc then BOOTDEV_SDMMC else BOOTDEV_UFS;
     bio_bcf_set := bcf_set;
     bio_bcf_clear := bcf_clear |}.

Definition sb : super_block := mk_super_block 1.

Definition descriptor : list Z := [1; 2; 3; 4; 5; 6; 7; 8].
Definition nonce : list Z :=
  [9; 8; 7; 6; 5; 4; 3; 2; 1; 0; 1; 2; 3; 4; 5; 6].

(** An encrypted directory, an encrypted regular file and an unencrypted
    directory. *)
Definition dir (ino : Z) (ci : option fscrypt_info) : inode :=
  mk_inode ino (S_IFDIR + 493) S_ENCRYPTED sb ci.
Definition reg (ino : Z) (ci : option fscrypt_info) : inode :=
  mk_inode ino (S_IFREG + 420) S_ENCRYPTED sb ci.
Definition plain_dir (ino : Z) : inode :=
  mk_inode ino (S_IFDIR + 493) 0 sb None.

Definition stored (mode flags : Z) : fscrypt_context :=
  Ctx.mk FS_ENCRYPTION_CONTEXT_FORMAT_V1 mode MODE_AES_256_CTS flags
         descriptor nonce.
Definition proposed (mode flags : Z) : fscrypt_policy :=
  Policy.mk 0 mode MODE_AES_256_CTS flags descriptor.
Definition info (mode flags : Z) : fscrypt_info :=
  mk_fscrypt_info mode MODE_AES_256_CTS flags descriptor [] 0.

(** A storage holding one full-size context for inode 2. *)
Definition one_context (c : fscrypt_context) : store :=
  [(2, (sizeof_fscrypt_context, c))].

Definition empty_bio : bio :=
  mk_bio (mk_bio_crypt_ctx 0 0 0 None false None 0).

End Sample.

(** * Properties of the policy functions *)

Section Facts.

Context {K : kernel}.

(** ** Byte comparison *)

Lemma memcmp_zero_sym (n : nat) :
  forall s1 s2, (memcmp s1 s2 n =? 0) = (memcmp s2 s1 n =? 0).
Proof.
  induction n as [|n IH]; intros s1 s2; simpl; [reflexivity|].
  rewrite (Z.eqb_sym (hd 0 s2) (hd 0 s1)).
  destruct (Z.eqb_spec (hd 0 s1) (hd 0 s2)) as [_|Hne]; [apply IH|].
  destruct (Z.eqb_spec (hd 0 s1 - hd 0 s2) 0);
    destruct (Z.eqb_spec (hd 0 s2 - hd 0 s1) 0); try reflexivity; lia.
Qed.

Lemma memcmp_same (n : nat) : forall s, memcmp s s n = 0.
Proof.
  induction n as [|n IH]; intros s; simpl; [reflexivity|].
  rewrite Z.eqb_refl. apply IH.
Qed.

(** ** The stored-versus-proposed comparator *)

Lemma consistent_with_policy_spec ctx policy inode :
  is_encryption_context_consistent_with_policy ctx policy inode = true
  <-> consistent_with_policy ctx policy inode.
Proof.
  unfold is_encryption_context_consistent_with_policy, consistent_with_policy.
  destruct (Z.eqb_spec (Ctx.contents_encryption_mode ctx)
                       (Policy.contents_encryption_mode policy)) as [Hm|Hm];
    destruct (hie_is_capable (i_sb inode));
    destruct (Z.eqb_spec (Ctx.contents_encryption_mode ctx)
                         FS_ENCRYPTION_MODE_PRIVATE) as [Hp|Hp];
    cbn [negb andb];
    rewrite ?andb_true_iff, ?Z.eqb_eq;
    intuition (try discriminate; try congruence).
Qed.

(** The code's comparator implies the rule of the specification, whatever
    flag the rule masks. *)
Lemma consistent_implies_sameEffectivePolicy ctx policy inode maskedFlags :
  is_encryption_context_consistent_with_policy ctx policy inode = true ->
  sameEffectivePolicy (hie_is_capable (i_sb inode)) ctx policy maskedFlags
  = true.
Proof.
  intros H. apply consistent_with_policy_spec in H.
  destruct H as (Hd & Hf & Hfl & Hm).
  unfold sameEffectivePolicy.
  rewrite Hd, Hf, Hfl, !Z.eqb_refl. cbn [andb].
  destruct Hm as [Hm|[Hc Hp]].
  - rewrite Hm, Z.eqb_refl. reflexivity.
  - rewrite Hc, Hp, Z.eqb_refl. apply orb_true_r.
Qed.

(** Where the two part: whatever the value of the IV_INO_LBLK_32 constant,
    as long as it is not 0, a stored context carrying exactly that flag and
    a policy carrying no flag, equal in every other field, are the same
    policy for the rule that masks the flag and are not consistent for the
    code. *)
Lemma sameEffectivePolicy_masks_what_the_code_compares ctx policy inode :
  FS_POLICY_FLAG_IV_INO_LBLK_32 <> 0 ->
  Ctx.flags ctx = FS_POLICY_FLAG_IV_INO_LBLK_32 ->
  Policy.flags policy = 0 ->
  memcmp (Ctx.master_key_descriptor ctx) (Policy.master_key_descriptor policy)
         FS_KEY_DESCRIPTOR_SIZE = 0 ->
  Ctx.filenames_encryption_mode ctx = Policy.filenames_encryption_mode policy ->
  Ctx.contents_encryption_mode ctx = Policy.contents_encryption_mode policy ->
  sameEffectivePolicy (hie_is_capable (i_sb inode)) ctx policy
    FS_POLICY_FLAG_IV_INO_LBLK_32 = true
  /\ is_encryption_context_consistent_with_policy ctx policy inode = false.
Proof.
  intros Hnz Hc Hp Hd Hf Hm. split.
  - unfold sameEffectivePolicy.
    rewrite Hd, Hf, Hc, Hp, Hm, !Z.eqb_refl.
    rewrite Z.land_0_l, Z.land_lnot_diag. reflexivity.
  - destruct (is_encryption_context_consistent_with_policy ctx policy inode)
      eqn:E; [|reflexivity].
    apply consistent_with_policy_spec in E.
    destruct E as (_ & _ & Hfl & _). congruence.
Qed.

(** The substitution goes one way for every kernel: on a capable
    filesystem, with a declared mode [m] other than the hardware-private
    one, stored hardware-private against declared [m] is consistent and
    stored [m] against declared hardware-private is not. *)
Lemma consistent_with_policy_asymmetric ctx policy inode :
  hie_is_capable (i_sb inode) = true ->
  Ctx.contents_encryption_mode ctx = FS_ENCRYPTION_MODE_PRIVATE ->
  Policy.contents_encryption_mode policy <> FS_ENCRYPTION_MODE_PRIVATE ->
  Ctx.flags ctx = Policy.flags policy ->
  memcmp (Ctx.master_key_descriptor ctx) (Policy.master_key_descriptor policy)
         FS_KEY_DESCRIPTOR_SIZE = 0 ->
  Ctx.filenames_encryption_mode ctx = Policy.filenames_encryption_mode policy ->
  is_encryption_context_consistent_with_policy ctx policy inode = true
  /\ is_encryption_context_consistent_with_policy
       (context_of_policy policy (Ctx.nonce ctx)) (policy_of_context ctx)
       inode = false.
Proof.
  intros Hcap Hp Hm Hfl Hd Hf. split.
  - apply consistent_with_policy_spec. unfold consistent_with_policy. auto 6.
  - unfold is_encryption_context_consistent_with_policy,
      context_of_policy, policy_of_context.
    cbn [Ctx.contents_encryption_mode Policy.contents_encryption_mode].
    rewrite Hp. apply Z.eqb_neq in Hm. rewrite Hm.
    rewrite andb_false_r. reflexivity.
Qed.

(** ** fscrypt_ioctl_set_policy on a target whose read did not say ENODATA *)

Lemma set_policy_after_read d filp policy nonce ret ctx :
  inode_owner_or_capable (file_inode filp) = true ->
  Policy.version policy = 0 ->
  mnt_want_write_file filp = 0 ->
  get_context (s_cop (i_sb (file_inode filp))) d (file_inode filp)
              sizeof_fscrypt_context = (ret, ctx) ->
  ret <> - ENODATA ->
  fscrypt_ioctl_set_policy d filp (Some policy) nonce =
  if (ret =? sizeof_fscrypt_context)
     && is_encryption_context_consistent_with_policy ctx policy
          (file_inode filp)
  then (0, d)
  else if (0 <=? ret) || (ret =? - ERANGE) then (- EEXIST, d)
  else (ret, d).
Proof.
  intros Hown Hver Hmnt Hget Hret.
  unfold fscrypt_ioctl_set_policy.
  rewrite Hown, Hver, Hmnt, Hget. cbn [negb Z.eqb].
  destruct (Z.eqb_spec ret (- ENODATA)) as [E|_]; [contradiction|].
  reflexivity.
Qed.

(** C1 (as amended): once the owner check, the version check and the write
    access to the mount have passed, a set-policy call on a target whose
    context read answers anything but ENODATA never writes, and it returns
    success exactly when the read returned a full-size record that is
    consistent with the proposed policy under the code's comparator:
    descriptors byte-equal, filename modes equal, flags equal bit for bit
    (no flag is masked), and content modes equal or the stored mode
    hardware-private on a capable filesystem.  A full-size stored context
    whose flags differ from the proposed ones in any bit is a conflict:
    EEXIST. *)
Theorem set_policy_existing_context_noop_iff :
  forall (d : disk) (filp : file) (policy : fscrypt_policy) (nonce : list Z)
         (ret : Z) (ctx : fscrypt_context),
    inode_owner_or_capable (file_inode filp) = true ->
    Policy.version policy = 0 ->
    mnt_want_write_file filp = 0 ->
    get_context (s_cop (i_sb (file_inode filp))) d (file_inode filp)
                sizeof_fscrypt_context = (ret, ctx) ->
    ret <> - ENODATA ->
    snd (fscrypt_ioctl_set_policy d filp (Some policy) nonce) = d
    /\ (fst (fscrypt_ioctl_set_policy d filp (Some policy) nonce) = 0
        <-> ret = sizeof_fscrypt_context
            /\ consistent_with_policy ctx policy (file_inode filp))
    /\ (ret = sizeof_fscrypt_context ->
        Ctx.flags ctx <> Policy.flags policy ->
        fscrypt_ioctl_set_policy d filp (Some policy) nonce = (- EEXIST, d)).
Proof.
  intros d filp policy nonce ret ctx Hown Hver Hmnt Hget Hret.
  rewrite (set_policy_after_read d filp policy nonce ret ctx
             Hown Hver Hmnt Hget Hret).
  rewrite <- consistent_with_policy_spec.
  destruct (Z.eqb_spec ret sizeof_fscrypt_context) as [Hsz|Hsz];
    destruct (is_encryption_context_consistent_with_policy
                ctx policy (file_inode filp)) eqn:Hc;
    cbn [andb].
  - repeat split; auto.
    intros _ Hfl. apply consistent_with_policy_spec in Hc.
    destruct Hc as (_ & _ & Hfl' & _). contradiction.
  - subst ret. cbn. repeat split; try discriminate.
    intros [_ H]; discriminate.
  - destruct ((0 <=? ret) || (ret =? - ERANGE)) eqn:Hb; cbn [fst snd].
    + repeat split; try discriminate; try tauto.
    + apply orb_false_iff in Hb. destruct Hb as [Hneg _].
      apply Z.leb_gt in Hneg.
      repeat split; try lia; try tauto.
  - destruct ((0 <=? ret) || (ret =? - ERANGE)) eqn:Hb; cbn [fst snd].
    + repeat split; try discriminate; try tauto.
    + apply orb_false_iff in Hb. destruct Hb as [Hneg _].
      apply Z.leb_gt in Hneg.
      repeat split; try lia; try tauto.
Qed.

(** C6: once the owner check, the version check and the write access to the
    mount have passed, a set-policy call whose context read reports a
    stored record (a result of 0 or more) that is not a full-size record
    equal to the proposed policy -- under the code's comparator or under
    the masked rule of the specification -- or reports ERANGE, returns
    EEXIST and leaves the storage as it was. *)
Theorem set_policy_conflict_eexist :
  forall (d : disk) (filp : file) (policy : fscrypt_policy) (nonce : list Z)
         (ret : Z) (ctx : fscrypt_context),
    inode_owner_or_capable (file_inode filp) = true ->
    Policy.version policy = 0 ->
    mnt_want_write_file filp = 0 ->
    get_context (s_cop (i_sb (file_inode filp))) d (file_inode filp)
                sizeof_fscrypt_context = (ret, ctx) ->
    (0 <= ret
     /\ (ret <> sizeof_fscrypt_context
         \/ is_encryption_context_consistent_with_policy
              ctx policy (file_inode filp) = false
         \/ sameEffectivePolicy (hie_is_capable (i_sb (file_inode filp)))
              ctx policy FS_POLICY_FLAG_IV_INO_LBLK_32 = false))
    \/ ret = - ERANGE ->
    fscrypt_ioctl_set_policy d filp (Some policy) nonce = (- EEXIST, d).
Proof.
  intros d filp policy nonce ret ctx Hown Hver Hmnt Hget Hcase.
  assert (Hret : ret <> - ENODATA).
  { unfold ENODATA, ERANGE in *. lia. }
  rewrite (set_policy_after_read d filp policy nonce ret ctx
             Hown Hver Hmnt Hget Hret).
  assert (Hnot : (ret =? sizeof_fscrypt_context)
                 && is_encryption_context_consistent_with_policy
                      ctx policy (file_inode filp) = false).
  { destruct Hcase as [[_ [Hsz|[Hc|Hs]]]|Hr].
    - apply Z.eqb_neq in Hsz. rewrite Hsz. reflexivity.
    - rewrite Hc. apply andb_false_r.
    - destruct (is_encryption_context_consistent_with_policy
                  ctx policy (file_inode filp)) eqn:Hc;
        [|apply andb_false_r].
      rewrite (consistent_implies_sameEffectivePolicy _ _ _ _ Hc) in Hs.
      discriminate.
    - subst ret. reflexivity. }
  rewrite Hnot.
  assert (Hb : (0 <=? ret) || (ret =? - ERANGE) = true).
  { destruct Hcase as [[Hge _]|Hr].
    - apply Z.leb_le in Hge. rewrite Hge. reflexivity.
    - subst ret. rewrite Z.eqb_refl. apply orb_true_r. }
  rewrite Hb. reflexivity.
Qed.

(** C10: once the owner check, the version check and the write access to
    the mount have passed, a context read that fails with an error other
    than ENODATA and other than ERANGE is handed back as it is: the call
    returns that very error, the storage is as it was (nothing is created),
    and the result is EEXIST only if the read error itself was. *)
Theorem set_policy_read_error_propagates :
  forall (d : disk) (filp : file) (policy : fscrypt_policy) (nonce : list Z)
         (ret : Z) (ctx : fscrypt_context),
    inode_owner_or_capable (file_inode filp) = true ->
    Policy.version policy = 0 ->
    mnt_want_write_file filp = 0 ->
    get_context (s_cop (i_sb (file_inode filp))) d (file_inode filp)
                sizeof_fscrypt_context = (ret, ctx) ->
    ret < 0 ->
    ret <> - ENODATA ->
    ret <> - ERANGE ->
    fscrypt_ioctl_set_policy d filp (Some policy) nonce = (ret, d)
    /\ (ret <> - EEXIST ->
        fst (fscrypt_ioctl_set_policy d filp (Some policy) nonce) <> - EEXIST).
Proof.
  intros d filp policy nonce ret ctx Hown Hver Hmnt Hget Hneg Hnd Hnr.
  rewrite (set_policy_after_read d filp policy nonce ret ctx
             Hown Hver Hmnt Hget Hnd).
  assert (Hsz : (ret =? sizeof_fscrypt_context) = false).
  { apply Z.eqb_neq. unfold sizeof_fscrypt_context. cbn. lia. }
  rewrite Hsz. cbn [andb].
  assert (Hb : (0 <=? ret) || (ret =? - ERANGE) = false).
  { apply orb_false_iff. split; [apply Z.leb_gt; lia | apply Z.eqb_neq; exact Hnr]. }
  rewrite Hb. split; [reflexivity | intros H; exact H].
Qed.

(** ** The comparators *)

(** C3 (as amended): the two parent-versus-child comparisons of the
    permitted-context check, on resolved infos and on stored contexts, are
    symmetric. *)
Theorem permitted_context_comparators_symmetric :
  (forall a b : fscrypt_info,
      crypt_infos_same_policy a b = crypt_infos_same_policy b a)
  /\ (forall a b : fscrypt_context,
         contexts_same_policy a b = contexts_same_policy b a).
Proof.
  split; intros a b.
  - unfold crypt_infos_same_policy.
    rewrite (memcmp_zero_sym _ (ci_master_key_descriptor a)).
    rewrite (Z.eqb_sym (ci_data_mode a)), (Z.eqb_sym (ci_filename_mode a)).
    rewrite (Z.eqb_sym (Z.land (ci_flags a) _)).
    reflexivity.
  - unfold contexts_same_policy.
    rewrite (memcmp_zero_sym _ (Ctx.master_key_descriptor a)).
    rewrite (Z.eqb_sym (Ctx.contents_encryption_mode a)).
    rewrite (Z.eqb_sym (Ctx.filenames_encryption_mode a)).
    rewrite (Z.eqb_sym (Z.land (Ctx.flags a) _)).
    reflexivity.
Qed.

(** C4: on a filesystem capable of hardware inline encryption, a stored
    context whose content mode is hardware-private is consistent with a
    policy declaring any content mode, the descriptor, the flags and the
    filename mode being equal; and whatever the filesystem, a stored
    content mode that is not hardware-private and differs from the declared
    one makes the comparison false, the declared mode being hardware-private
    or not. *)
Theorem consistent_private_substitution_one_way :
  forall (ctx : fscrypt_context) (policy : fscrypt_policy) (inode : inode),
    (hie_is_capable (i_sb inode) = true ->
     Ctx.contents_encryption_mode ctx = FS_ENCRYPTION_MODE_PRIVATE ->
     memcmp (Ctx.master_key_descriptor ctx)
            (Policy.master_key_descriptor policy) FS_KEY_DESCRIPTOR_SIZE = 0 ->
     Ctx.flags ctx = Policy.flags policy ->
     Ctx.filenames_encryption_mode ctx =
     Policy.filenames_encryption_mode policy ->
     is_encryption_context_consistent_with_policy ctx policy inode = true)
    /\ (Ctx.contents_encryption_mode ctx <> FS_ENCRYPTION_MODE_PRIVATE ->
        Ctx.contents_encryption_mode ctx <>
        Policy.contents_encryption_mode policy ->
        is_encryption_context_consistent_with_policy ctx policy inode = false).
Proof.
  intros ctx policy inode. split.
  - intros Hcap Hp Hd Hfl Hfn.
    apply consistent_with_policy_spec.
    unfold consistent_with_policy. auto 6.
  - intros Hnp Hne.
    unfold is_encryption_context_consistent_with_policy.
    apply Z.eqb_neq in Hnp, Hne. rewrite Hnp, Hne.
    rewrite andb_false_r. reflexivity.
Qed.

(** ** create_encryption_context_from_policy *)

(** C7 (as amended): a policy whose flags include the IV_INO_LBLK_32 bit
    and whose declared content mode is not hardware-private is refused with
    EINVAL and nothing is written; when the declared content mode is
    hardware-private and the mode pair and the flag set are valid, the flag
    is not refused: the context is built with the flags of the policy and
    handed to set_context, whose answer is the result. *)
Theorem create_context_iv_flag_needs_declared_private :
  forall (d : disk) (inode : inode) (policy : fscrypt_policy)
         (nonce : list Z),
    (Z.land (Policy.flags policy) FS_POLICY_FLAG_IV_INO_LBLK_32 <> 0 ->
     Policy.contents_encryption_mode policy <> FS_ENCRYPTION_MODE_PRIVATE ->
     create_encryption_context_from_policy d inode policy nonce
     = (- EINVAL, d))
    /\ (fscrypt_valid_enc_modes (Policy.contents_encryption_mode policy)
          (Policy.filenames_encryption_mode policy) = true ->
        Z.land (Policy.flags policy) (Z.lnot FS_POLICY_FLAGS_VALID) = 0 ->
        Policy.contents_encryption_mode policy = FS_ENCRYPTION_MODE_PRIVATE ->
        create_encryption_context_from_policy d inode policy nonce
        = set_context (s_cop (i_sb inode)) d inode
            (Ctx.mk FS_ENCRYPTION_CONTEXT_FORMAT_V1
               (u8 (fscrypt_data_crypt_mode inode FS_ENCRYPTION_MODE_PRIVATE))
               (Policy.filenames_encryption_mode policy)
               (Policy.flags policy)
               (memcpy (Policy.master_key_descriptor policy)
                       FS_KEY_DESCRIPTOR_SIZE)
               (memcpy nonce FS_KEY_DERIVATION_NONCE_SIZE))
            sizeof_fscrypt_context None).
Proof.
  intros d inode policy nonce. split.
  - intros Hiv Hmode.
    unfold create_encryption_context_from_policy.
    apply Z.eqb_neq in Hiv, Hmode. rewrite Hiv, Hmode. cbn [negb andb].
    destruct (fscrypt_valid_enc_modes _ _); cbn [negb]; [|reflexivity].
    destruct (Z.land (Policy.flags policy) (Z.lnot FS_POLICY_FLAGS_VALID) =? 0);
      reflexivity.
  - intros Hvalid Hflags Hmode.
    unfold create_encryption_context_from_policy.
    rewrite Hvalid, Hflags, Hmode, !Z.eqb_refl. cbn [negb].
    rewrite andb_false_r. reflexivity.
Qed.

(** The refusal looks at the declared mode only: whenever
    [fscrypt_data_crypt_mode] turns a declared mode other than the
    hardware-private one into the hardware-private one, the flag is refused
    although the mode that would be stored is hardware-private. *)
Lemma create_context_refuses_on_declared_mode d inode policy nonce :
  Z.land (Policy.flags policy) FS_POLICY_FLAG_IV_INO_LBLK_32 <> 0 ->
  Policy.contents_encryption_mode policy <> FS_ENCRYPTION_MODE_PRIVATE ->
  u8 (fscrypt_data_crypt_mode inode (Policy.contents_encryption_mode policy))
  = FS_ENCRYPTION_MODE_PRIVATE ->
  create_encryption_context_from_policy d inode policy nonce = (- EINVAL, d).
Proof.
  intros Hiv Hmode _.
  unfold create_encryption_context_from_policy.
  apply Z.eqb_neq in Hiv, Hmode. rewrite Hiv, Hmode. cbn [negb andb].
  destruct (fscrypt_valid_enc_modes _ _); cbn [negb]; [|reflexivity].
  destruct (Z.land (Policy.flags policy) (Z.lnot FS_POLICY_FLAGS_VALID) =? 0);
    reflexivity.
Qed.

(** ** fscrypt_ioctl_get_policy *)

Lemma get_policy_success d filp ctx :
  IS_ENCRYPTED (file_inode filp) = true ->
  get_context (s_cop (i_sb (file_inode filp))) d (file_inode filp)
              sizeof_fscrypt_context = (sizeof_fscrypt_context, ctx) ->
  Ctx.format ctx = FS_ENCRYPTION_CONTEXT_FORMAT_V1 ->
  fscrypt_ioctl_get_policy d filp true =
  (0, Some (Policy.mk 0
              (if S_ISDIR (i_mode (file_inode filp))
                  && negb (Ctx.contents_encryption_mode ctx =?
                           FS_ENCRYPTION_MODE_INVALID)
               then FS_ENCRYPTION_MODE_AES_256_XTS
               else Ctx.contents_encryption_mode ctx)
              (Ctx.filenames_encryption_mode ctx)
              (Ctx.flags ctx)
              (memcpy (Ctx.master_key_descriptor ctx)
                      FS_KEY_DESCRIPTOR_SIZE))).
Proof.
  intros Henc Hget Hfmt.
  unfold fscrypt_ioctl_get_policy.
  rewrite Henc, Hget, Hfmt. reflexivity.
Qed.

(** C8: get-policy on an encrypted object whose context read returns a
    full-size record of format V1, with a writable user buffer, succeeds and
    reports a policy whose content mode is AES-256-XTS when the object is a
    directory and the stored mode is not the invalid mode, and the stored
    mode unchanged when the object is not a directory; the hardware-private
    mode being neither AES-256-XTS nor the invalid mode, the content mode
    reported for a directory is never hardware-private. *)
Theorem get_policy_reported_content_mode :
  forall (d : disk) (filp : file) (ctx : fscrypt_context),
    IS_ENCRYPTED (file_inode filp) = true ->
    get_context (s_cop (i_sb (file_inode filp))) d (file_inode filp)
                sizeof_fscrypt_context = (sizeof_fscrypt_context, ctx) ->
    Ctx.format ctx = FS_ENCRYPTION_CONTEXT_FORMAT_V1 ->
    exists policy : fscrypt_policy,
      fscrypt_ioctl_get_policy d filp true = (0, Some policy)
      /\ (S_ISDIR (i_mode (file_inode filp)) = true ->
          Ctx.contents_encryption_mode ctx <> FS_ENCRYPTION_MODE_INVALID ->
          Policy.contents_encryption_mode policy
          = FS_ENCRYPTION_MODE_AES_256_XTS)
      /\ (S_ISDIR (i_mode (file_inode filp)) = true ->
          FS_ENCRYPTION_MODE_PRIVATE <> FS_ENCRYPTION_MODE_AES_256_XTS ->
          FS_ENCRYPTION_MODE_PRIVATE <> FS_ENCRYPTION_MODE_INVALID ->
          Policy.contents_encryption_mode policy
          <> FS_ENCRYPTION_MODE_PRIVATE)
      /\ (S_ISDIR (i_mode (file_inode filp)) = false ->
          Policy.contents_encryption_mode policy
          = Ctx.contents_encryption_mode ctx).
Proof.
  intros d filp ctx Henc Hget Hfmt.
  eexists. split; [apply (get_policy_success d filp ctx Henc Hget Hfmt)|].
  cbn [Policy.contents_encryption_mode].
  destruct (S_ISDIR (i_mode (file_inode filp)));
    destruct (Z.eqb_spec (Ctx.contents_encryption_mode ctx)
                         FS_ENCRYPTION_MODE_INVALID) as [Hi|Hi];
    cbn [andb negb]; repeat split; intros; try discriminate;
    try congruence.
Qed.

(** ** fscrypt_has_permitted_context *)

Lemma has_permitted_context_both_encrypted d parent child :
  S_ISREG (i_mode child) || S_ISDIR (i_mode child) || S_ISLNK (i_mode child)
  = true ->
  IS_ENCRYPTED parent = true ->
  IS_ENCRYPTED child = true ->
  fscrypt_has_permitted_context d parent child =
  let '(res, parent') := fscrypt_get_encryption_info d parent in
  if negb (res =? 0) then 0
  else
    let '(res, child') := fscrypt_get_encryption_info d child in
    if negb (res =? 0) then 0
    else
      match i_crypt_info parent', i_crypt_info child' with
      | Some parent_ci, Some child_ci =>
          b2z (crypt_infos_same_policy parent_ci child_ci)
      | _, _ =>
          let '(res, parent_ctx) :=
            get_context (s_cop (i_sb parent)) d parent'
                        sizeof_fscrypt_context in
          if negb (res =? sizeof_fscrypt_context) then 0
          else
            let '(res, child_ctx) :=
              get_context (s_cop (i_sb parent)) d child'
                          sizeof_fscrypt_context in
            if negb (res =? sizeof_fscrypt_context) then 0
            else
              b2z (contexts_same_policy
                     (Ctx.set_contents_encryption_mode parent_ctx
                        (u8 (fscrypt_data_crypt_mode parent'
                               (Ctx.contents_encryption_mode parent_ctx))))
                     (Ctx.set_contents_encryption_mode child_ctx
                        (u8 (fscrypt_data_crypt_mode child'
                               (Ctx.contents_encryption_mode child_ctx)))))
      end.
Proof.
  intros Hty Hp Hc. unfold fscrypt_has_permitted_context.
  rewrite Hp, Hc.
  destruct (S_ISREG (i_mode child)), (S_ISDIR (i_mode child)),
    (S_ISLNK (i_mode child)); try discriminate Hty; reflexivity.
Qed.

Lemma has_permitted_context_boolean d parent child :
  fscrypt_has_permitted_context d parent child = 0
  \/ fscrypt_has_permitted_context d parent child = 1.
Proof.
  unfold fscrypt_has_permitted_context, b2z.
  repeat match goal with
         | |- context [let '(_, _) := ?p in _] => destruct p
         | |- context [match i_crypt_info ?i with _ => _ end] =>
             destruct (i_crypt_info i)
         | |- context [if ?b then _ else _] => destruct b
         end; auto.
Qed.

(** C5: the permitted-context check answers 0 or 1 and nothing else; and
    for a child of a type subject to encryption (regular file, directory or
    symlink), parent and child both encrypted, it answers 0 as soon as
    resolving the crypt info of the parent or of the child returns an
    error, or, one of the two infos being unavailable, the read of the
    stored context of the parent or of the child returns anything but the
    size of a full record (an error included). *)
Theorem has_permitted_context_fails_closed :
  forall (d : disk) (parent child : inode),
    (fscrypt_has_permitted_context d parent child = 0
     \/ fscrypt_has_permitted_context d parent child = 1)
    /\ (S_ISREG (i_mode child) || S_ISDIR (i_mode child)
        || S_ISLNK (i_mode child) = true ->
        IS_ENCRYPTED parent = true ->
        IS_ENCRYPTED child = true ->
        forall (rp rc : Z) (parent' child' : inode),
          fscrypt_get_encryption_info d parent = (rp, parent') ->
          fscrypt_get_encryption_info d child = (rc, child') ->
          rp <> 0
          \/ rc <> 0
          \/ ((i_crypt_info parent' = None \/ i_crypt_info child' = None)
              /\ (fst (get_context (s_cop (i_sb parent)) d parent'
                                   sizeof_fscrypt_context)
                  <> sizeof_fscrypt_context
                  \/ fst (get_context (s_cop (i_sb parent)) d child'
                                      sizeof_fscrypt_context)
                     <> sizeof_fscrypt_context)) ->
          fscrypt_has_permitted_context d parent child = 0).
Proof.
  intros d parent child. split; [apply has_permitted_context_boolean|].
  intros Hty Hp Hc rp rc parent' child' Hgp Hgc Hfail.
  rewrite (has_permitted_context_both_encrypted d parent child Hty Hp Hc).
  rewrite Hgp, Hgc.
  destruct (Z.eqb_spec rp 0) as [Hrp|Hrp]; cbn [negb]; [|reflexivity].
  destruct (Z.eqb_spec rc 0) as [Hrc|Hrc]; cbn [negb]; [|reflexivity].
  destruct Hfail as [H|[H|[Hnone Hread]]]; try contradiction.
  destruct (get_context (s_cop (i_sb parent)) d parent'
                        sizeof_fscrypt_context) as [r1 c1].
  destruct (get_context (s_cop (i_sb parent)) d child'
                        sizeof_fscrypt_context) as [r2 c2].
  cbn [fst] in Hread.
  assert (Hfallback :
            (if negb (r1 =? sizeof_fscrypt_context) then 0
             else if negb (r2 =? sizeof_fscrypt_context) then 0
                  else b2z (contexts_same_policy
                     (Ctx.set_contents_encryption_mode c1
                        (u8 (fscrypt_data_crypt_mode parent'
                               (Ctx.contents_encryption_mode c1))))
                     (Ctx.set_contents_encryption_mode c2
                        (u8 (fscrypt_data_crypt_mode child'
                               (Ctx.contents_encryption_mode c2)))))) = 0).
  { destruct (Z.eqb_spec r1 sizeof_fscrypt_context); cbn [negb];
      [|reflexivity].
    destruct (Z.eqb_spec r2 sizeof_fscrypt_context); cbn [negb];
      [|reflexivity].
    destruct Hread; contradiction. }
  destruct Hnone as [Hn|Hn]; rewrite Hn.
  - exact Hfallback.
  - destruct (i_crypt_info parent'); exact Hfallback.
Qed.

(** ** fscrypt_inherit_context *)

Lemma u8_lor_keeps_flag (f iv : Z) :
  0 <= iv < 2 ^ 8 -> Z.land (u8 (Z.lor f iv)) iv = iv.
Proof.
  intros Hiv. unfold u8. rewrite <- Z.land_ones by lia.
  apply Z.bits_inj'. intros n Hn.
  rewrite !Z.land_spec, Z.lor_spec, Z.testbit_ones_nonneg by lia.
  destruct (Z.testbit iv n) eqn:Hbit; [|apply andb_false_r].
  rewrite orb_true_r. cbn [andb]. rewrite andb_true_r.
  destruct (Z.ltb_spec n 8) as [Hlt|Hge]; [reflexivity|].
  assert (Hz : Z.testbit iv n = false); [|congruence].
  destruct (Z.eq_dec iv 0) as [->|Hnz]; [apply Z.bits_0|].
  apply Z.bits_above_log2; [lia|].
  assert (Z.log2 iv < 8) by (apply Z.log2_lt_pow2; lia). lia.
Qed.

(** C9: when the crypt info of the parent resolves, inherit-context builds
    the context of the child from it: format V1, the descriptor, the
    content mode and the filename mode copied, a fresh nonce, and flags that
    are the flags of the parent with the IV_INO_LBLK_32 bit ORed in when
    the content mode is hardware-private and fscrypt_force_iv_ino_lblk_32
    holds, and the flags of the parent unchanged in every other case; that
    context is what set_context is called with for the child. *)
Theorem inherit_context_child_context :
  forall (d : disk) (parent child : inode) (fs_data : option Z)
         (preload : bool) (nonce : list Z) (res : Z) (parent' : inode)
         (ci : fscrypt_info),
    fscrypt_get_encryption_info d parent = (res, parent') ->
    0 <= res ->
    i_crypt_info parent' = Some ci ->
    exists ctx : fscrypt_context,
      Ctx.format ctx = FS_ENCRYPTION_CONTEXT_FORMAT_V1
      /\ Ctx.master_key_descriptor ctx
         = memcpy (ci_master_key_descriptor ci) FS_KEY_DESCRIPTOR_SIZE
      /\ Ctx.contents_encryption_mode ctx = ci_data_mode ci
      /\ Ctx.filenames_encryption_mode ctx = ci_filename_mode ci
      /\ Ctx.nonce ctx = memcpy nonce FS_KEY_DERIVATION_NONCE_SIZE
      /\ Ctx.flags ctx
         = (if (ci_data_mode ci =? FS_ENCRYPTION_MODE_PRIVATE)
               && fscrypt_force_iv_ino_lblk_32
            then u8 (Z.lor (ci_flags ci) FS_POLICY_FLAG_IV_INO_LBLK_32)
            else ci_flags ci)
      /\ (ci_data_mode ci = FS_ENCRYPTION_MODE_PRIVATE ->
          fscrypt_force_iv_ino_lblk_32 = true ->
          0 <= FS_POLICY_FLAG_IV_INO_LBLK_32 < 2 ^ 8 ->
          Z.land (Ctx.flags ctx) FS_POLICY_FLAG_IV_INO_LBLK_32
          = FS_POLICY_FLAG_IV_INO_LBLK_32)
      /\ (ci_data_mode ci <> FS_ENCRYPTION_MODE_PRIVATE
          \/ fscrypt_force_iv_ino_lblk_32 = false ->
          Ctx.flags ctx = ci_flags ci)
      /\ fscrypt_inherit_context d parent child fs_data preload nonce
         = (let '(r, d') :=
              set_context (s_cop (i_sb parent')) d child ctx
                          sizeof_fscrypt_context fs_data in
            if negb (r =? 0) then (r, d')
            else if preload
                 then (fst (fscrypt_get_encryption_info d' child), d')
                 else (0, d')).
Proof.
  intros d parent child fs_data preload nonce res parent' ci Hget Hres Hci.
  eexists (Ctx.mk _ _ _ _ _ _).
  cbn [Ctx.format Ctx.master_key_descriptor Ctx.contents_encryption_mode
       Ctx.filenames_encryption_mode Ctx.nonce Ctx.flags].
  repeat (split; [reflexivity|]).
  split; [|split].
  - intros Hm Hforce Hiv. rewrite Hm, Z.eqb_refl, Hforce. cbn [andb].
    apply u8_lor_keeps_flag. exact Hiv.
  - intros [Hm|Hforce].
    + apply Z.eqb_neq in Hm. rewrite Hm. reflexivity.
    + rewrite Hforce, andb_false_r. reflexivity.
  - unfold fscrypt_inherit_context. rewrite Hget.
    apply Z.ltb_ge in Hres. rewrite Hres, Hci. reflexivity.
Qed.

(** ** fscrypt_set_bio_ctx *)

(** C2 (as amended): on a regular file whose crypt info uses the
    hardware-private content mode, when the info reference attached to the
    request comes back empty, the bind raises a warning and still returns
    success: the request stays marked for hardware crypto, with an empty
    info reference. *)
Theorem set_bio_ctx_empty_info_only_warns :
  forall (file_ino : inode) (req : bio) (ci : fscrypt_info),
    S_ISREG (i_mode file_ino) = true ->
    i_crypt_info file_ino = Some ci ->
    ci_data_mode ci = FS_ENCRYPTION_MODE_PRIVATE ->
    fscrypt_crypt_info_act ci BIO_BC_INFO_GET = None ->
    exists (marked : bio) (w : list warning),
      fscrypt_set_bio_ctx (Some file_ino) (Some req) = (0, Some marked, w)
      /\ In WARN_no_bc_info w
      /\ bc_info (bi_crypt_ctx marked) = None
      /\ bc_flags (bi_crypt_ctx marked)
         = bc_flags (bi_crypt_ctx
                       (bio_bcf_set req (Z.lor BC_CRYPT BC_AES_256_XTS))).
Proof.
  intros file_ino req ci Hreg Hci Hmode Hact.
  unfold fscrypt_set_bio_ctx.
  rewrite Hreg, Hci, Hmode, Z.eqb_refl.
  cbn [bc_info]. rewrite Hact.
  do 2 eexists. split; [reflexivity|].
  split; [apply in_or_app; right; left; reflexivity|].
  split; reflexivity.
Qed.

(** A request bound with an empty info reference is caught later: asking
    for its key answers ENOKEY. *)
Lemma key_payload_after_empty_bind file_ino req ci marked w want_key :
  S_ISREG (i_mode file_ino) = true ->
  i_crypt_info file_ino = Some ci ->
  ci_data_mode ci = FS_ENCRYPTION_MODE_PRIVATE ->
  fscrypt_crypt_info_act ci BIO_BC_INFO_GET = None ->
  fscrypt_set_bio_ctx (Some file_ino) (Some req) = (0, Some marked, w) ->
  fscrypt_key_payload (bi_crypt_ctx marked) want_key = (- ENOKEY, None).
Proof.
  intros Hreg Hci Hmode Hact Hbind.
  unfold fscrypt_set_bio_ctx in Hbind.
  rewrite Hreg, Hci, Hmode, Z.eqb_refl in Hbind.
  cbn [bc_info] in Hbind. rewrite Hact in Hbind.
  injection Hbind as Hm _. subst marked.
  unfold fscrypt_key_payload. reflexivity.
Qed.

End Facts.

(** * The functions at work on the sample kernel *)

Import Sample.

(** C1, witness: a stored hardware-private context and a proposed
    AES-256-XTS policy with the same flags on a capable filesystem: success,
    nothing written. *)
Lemma set_policy_existing_context_noop_iff_witness :
  fst (fscrypt_ioctl_set_policy (K := machine true true true)
         (one_context (stored MODE_PRIVATE 0)) (mk_file (dir 2 None))
         (Some (proposed FS_ENCRYPTION_MODE_AES_256_XTS 0)) nonce) = 0
  /\ snd (fscrypt_ioctl_set_policy (K := machine true true true)
            (one_context (stored MODE_PRIVATE 0)) (mk_file (dir 2 None))
            (Some (proposed FS_ENCRYPTION_MODE_AES_256_XTS 0)) nonce)
     = one_context (stored MODE_PRIVATE 0).
Proof.
  destruct (set_policy_existing_context_noop_iff (K := machine true true true)
              (one_context (stored MODE_PRIVATE 0)) (mk_file (dir 2 None))
              (proposed FS_ENCRYPTION_MODE_AES_256_XTS 0) nonce
              sizeof_fscrypt_context (stored MODE_PRIVATE 0)
              eq_refl eq_refl eq_refl eq_refl ltac:(discriminate))
    as (Hsame & Hiff & _).
  split; [|exact Hsame].
  apply Hiff. split; [reflexivity|].
  repeat split. right. split; reflexivity.
Defined.

(** C1, counterexample: on a capable filesystem a stored context and a
    proposed policy differ in the IV_INO_LBLK_32 bit only; the rule of the
    specification, masking that bit, calls them the same policy, and
    set-policy answers EEXIST. *)
Lemma set_policy_iv_flag_difference_is_conflict :
  sameEffectivePolicy (K := machine true true true) true
    (stored MODE_PRIVATE FLAG_IV_INO_LBLK_32) (proposed MODE_PRIVATE 0)
    (FS_POLICY_FLAG_IV_INO_LBLK_32 (kernel := machine true true true)) = true
  /\ fscrypt_ioctl_set_policy (K := machine true true true)
       (one_context (stored MODE_PRIVATE FLAG_IV_INO_LBLK_32))
       (mk_file (dir 2 None)) (Some (proposed MODE_PRIVATE 0)) nonce
     = (- EEXIST, one_context (stored MODE_PRIVATE FLAG_IV_INO_LBLK_32)).
Proof. split; reflexivity. Qed.

(** C2, witness: taking the info reference fails on the sample kernel. *)
Lemma set_bio_ctx_empty_info_only_warns_witness :
  exists (marked : bio) (w : list warning),
    fscrypt_set_bio_ctx (K := machine true true false)
      (Some (reg 3 (Some (info MODE_PRIVATE 0)))) (Some empty_bio)
    = (0, Some marked, w)
    /\ In WARN_no_bc_info w
    /\ bc_info (bi_crypt_ctx marked) = None
    /\ bc_flags (bi_crypt_ctx marked) = 17.
Proof.
  exact (set_bio_ctx_empty_info_only_warns (K := machine true true false)
           (reg 3 (Some (info MODE_PRIVATE 0))) empty_bio
           (info MODE_PRIVATE 0) eq_refl eq_refl eq_refl eq_refl).
Defined.

(** C2, counterexample: regular file, hardware-private info, empty info
    reference: the bind returns 0, having only warned. *)
Lemma set_bio_ctx_empty_info_returns_success :
  fscrypt_set_bio_ctx (K := machine true true false)
    (Some (reg 3 (Some (info MODE_PRIVATE 0)))) (Some empty_bio)
  = (0,
     Some (mk_bio (mk_bio_crypt_ctx 17 64 3 (Some sb) true None 0)),
     [WARN_no_bc_info]).
Proof. reflexivity. Qed.

(** C3, counterexample: on a capable filesystem, a stored hardware-private
    context compared with a proposed AES-256-XTS policy is consistent, and
    the two exchanged are not; so for the rule of the specification. *)
Lemma consistent_with_policy_not_symmetric :
  is_encryption_context_consistent_with_policy (K := machine true true true)
    (stored MODE_PRIVATE 0) (proposed FS_ENCRYPTION_MODE_AES_256_XTS 0)
    (dir 2 None) = true
  /\ is_encryption_context_consistent_with_policy
       (K := machine true true true)
       (context_of_policy (proposed FS_ENCRYPTION_MODE_AES_256_XTS 0) nonce)
       (policy_of_context (stored MODE_PRIVATE 0))
       (dir 2 None) = false
  /\ sameEffectivePolicy (K := machine true true true) true
       (stored MODE_PRIVATE 0) (proposed FS_ENCRYPTION_MODE_AES_256_XTS 0)
       FLAG_IV_INO_LBLK_32 = true
  /\ sameEffectivePolicy (K := machine true true true) true
       (context_of_policy (proposed FS_ENCRYPTION_MODE_AES_256_XTS 0) nonce)
       (policy_of_context (stored MODE_PRIVATE 0))
       FLAG_IV_INO_LBLK_32 = false.
Proof. repeat split; reflexivity. Qed.

(** C4, witness: the substitution, and its reverse. *)
Lemma consistent_private_substitution_one_way_witness :
  is_encryption_context_consistent_with_policy (K := machine true true true)
    (stored MODE_PRIVATE 0) (proposed FS_ENCRYPTION_MODE_AES_256_XTS 0)
    (dir 2 None) = true
  /\ is_encryption_context_consistent_with_policy
       (K := machine true true true)
       (stored FS_ENCRYPTION_MODE_AES_256_XTS 0) (proposed MODE_PRIVATE 0)
       (dir 2 None) = false.
Proof.
  split.
  - exact (proj1 (consistent_private_substitution_one_way
                    (K := machine true true true)
                    (stored MODE_PRIVATE 0)
                    (proposed FS_ENCRYPTION_MODE_AES_256_XTS 0) (dir 2 None))
                 eq_refl eq_refl eq_refl eq_refl eq_refl).
  - exact (proj2 (consistent_private_substitution_one_way
                    (K := machine true true true)
                    (stored FS_ENCRYPTION_MODE_AES_256_XTS 0)
                    (proposed MODE_PRIVATE 0) (dir 2 None))
                 ltac:(discriminate) ltac:(discriminate)).
Defined.

(** C5, witness: the read behind the resolution of the parent fails with
    EIO. *)
Lemma has_permitted_context_fails_closed_witness :
  fscrypt_has_permitted_context (K := machine true true true)
    [(2, (-5, no_context))] (dir 2 None)
    (reg 3 (Some (info MODE_PRIVATE 0))) = 0.
Proof.
  refine (proj2 (has_permitted_context_fails_closed
                   (K := machine true true true)
                   [(2, (-5, no_context))] (dir 2 None)
                   (reg 3 (Some (info MODE_PRIVATE 0))))
                _ _ _
                (-5) 0 (dir 2 None) (reg 3 (Some (info MODE_PRIVATE 0)))
                _ _ _); try reflexivity.
  left. discriminate.
Defined.

(** C6, witness: a stored AES-256-XTS context and a proposed
    hardware-private policy. *)
Lemma set_policy_conflict_eexist_witness :
  fscrypt_ioctl_set_policy (K := machine true true true)
    (one_context (stored FS_ENCRYPTION_MODE_AES_256_XTS 0))
    (mk_file (dir 2 None)) (Some (proposed MODE_PRIVATE 0)) nonce
  = (- EEXIST, one_context (stored FS_ENCRYPTION_MODE_AES_256_XTS 0)).
Proof.
  apply (set_policy_conflict_eexist (K := machine true true true)
           (one_context (stored FS_ENCRYPTION_MODE_AES_256_XTS 0))
           (mk_file (dir 2 None)) (proposed MODE_PRIVATE 0) nonce
           sizeof_fscrypt_context (stored FS_ENCRYPTION_MODE_AES_256_XTS 0));
    try reflexivity.
  left. split; [discriminate|]. right. left. reflexivity.
Defined.

(** C7, witness: the flag with AES-256-XTS declared, and with the
    hardware-private mode declared. *)
Lemma create_context_iv_flag_needs_declared_private_witness :
  create_encryption_context_from_policy (K := machine true true true)
    [] (plain_dir 2)
    (proposed FS_ENCRYPTION_MODE_AES_256_XTS FLAG_IV_INO_LBLK_32) nonce
  = (- EINVAL, [])
  /\ create_encryption_context_from_policy (K := machine true true true)
       [] (plain_dir 2) (proposed MODE_PRIVATE FLAG_IV_INO_LBLK_32) nonce
     = (0, one_context (stored MODE_PRIVATE FLAG_IV_INO_LBLK_32)).
Proof.
  split.
  - exact (proj1 (create_context_iv_flag_needs_declared_private
                    (K := machine true true true) [] (plain_dir 2)
                    (proposed FS_ENCRYPTION_MODE_AES_256_XTS
                              FLAG_IV_INO_LBLK_32) nonce)
                 ltac:(discriminate) ltac:(discriminate)).
  - exact (proj2 (create_context_iv_flag_needs_declared_private
                    (K := machine true true true) [] (plain_dir 2)
                    (proposed MODE_PRIVATE FLAG_IV_INO_LBLK_32) nonce)
                 eq_refl eq_refl eq_refl).
Defined.

(** C7, counterexample: on a capable filesystem a policy declares
    AES-256-XTS with the IV_INO_LBLK_32 bit; the mode pair and the flag set
    are valid and the effective content mode, the one that would be stored,
    is hardware-private; the policy is refused with EINVAL all the same. *)
Lemma create_context_refuses_flag_on_effective_private :
  fscrypt_valid_enc_modes (kernel := machine true true true)
    FS_ENCRYPTION_MODE_AES_256_XTS MODE_AES_256_CTS = true
  /\ Z.land FLAG_IV_INO_LBLK_32
       (Z.lnot (FS_POLICY_FLAGS_VALID (kernel := machine true true true))) = 0
  /\ u8 (fscrypt_data_crypt_mode (kernel := machine true true true)
           (plain_dir 2) FS_ENCRYPTION_MODE_AES_256_XTS)
     = FS_ENCRYPTION_MODE_PRIVATE (kernel := machine true true true)
  /\ create_encryption_context_from_policy (K := machine true true true)
       [] (plain_dir 2)
       (proposed FS_ENCRYPTION_MODE_AES_256_XTS FLAG_IV_INO_LBLK_32) nonce
     = (- EINVAL, []).
Proof. repeat split; reflexivity. Qed.

(** C8, witness: a directory whose stored mode is hardware-private. *)
Lemma get_policy_reported_content_mode_witness :
  exists policy : fscrypt_policy,
    fscrypt_ioctl_get_policy (K := machine true true true)
      (one_context (stored MODE_PRIVATE 0)) (mk_file (dir 2 None)) true
    = (0, Some policy)
    /\ Policy.contents_encryption_mode policy = FS_ENCRYPTION_MODE_AES_256_XTS
    /\ Policy.contents_encryption_mode policy <> MODE_PRIVATE.
Proof.
  destruct (get_policy_reported_content_mode (K := machine true true true)
              (one_context (stored MODE_PRIVATE 0)) (mk_file (dir 2 None))
              (stored MODE_PRIVATE 0) eq_refl eq_refl eq_refl)
    as (policy & Hret & Hdir & Hnever & _).
  exists policy. split; [exact Hret|]. split.
  - apply Hdir; [reflexivity|discriminate].
  - apply Hnever; [reflexivity|discriminate|discriminate].
Defined.

(** C9, witness: eMMC command queueing, a parent without the flag: the
    child gets it. *)
Lemma inherit_context_child_context_witness :
  exists ctx : fscrypt_context,
    Ctx.flags ctx = FLAG_IV_INO_LBLK_32
    /\ Ctx.contents_encryption_mode ctx = MODE_PRIVATE
    /\ fscrypt_inherit_context (K := machine true true true)
         [] (dir 2 (Some (info MODE_PRIVATE 0))) (reg 3 None) None false nonce
       = (0, [(3, (sizeof_fscrypt_context, ctx))]).
Proof.
  destruct (inherit_context_child_context (K := machine true true true)
              [] (dir 2 (Some (info MODE_PRIVATE 0))) (reg 3 None) None false
              nonce 0 (dir 2 (Some (info MODE_PRIVATE 0)))
              (info MODE_PRIVATE 0) eq_refl ltac:(discriminate) eq_refl)
    as (ctx & _ & _ & Hmode & _ & _ & Hflags & _ & _ & Hcall).
  exists ctx. split; [exact Hflags|]. split; [exact Hmode|exact Hcall].
Defined.

(** C10, witness: the read fails with EIO. *)
Lemma set_policy_read_error_propagates_witness :
  fscrypt_ioctl_set_policy (K := machine true true true)
    [(2, (-5, no_context))] (mk_file (dir 2 None))
    (Some (proposed MODE_PRIVATE 0)) nonce
  = (-5, [(2, (-5, no_context))]).
Proof.
  exact (proj1 (set_policy_read_error_propagates (K := machine true true true)
                  [(2, (-5, no_context))] (mk_file (dir 2 None))
                  (proposed MODE_PRIVATE 0) nonce (-5) no_context
                  eq_refl eq_refl eq_refl eq_refl eq_refl
                  ltac:(discriminate) ltac:(discriminate))).
Defined.

(** * Further properties of the policy functions *)

Section MoreFacts.

Context {K : kernel}.

(** ** Bytes and flag bits *)

Lemma memcmp_zero_trans (n : nat) :
  forall s1 s2 s3,
    memcmp s1 s2 n = 0 -> memcmp s2 s3 n = 0 -> memcmp s1 s3 n = 0.
Proof.
  induction n as [|n IH]; intros s1 s2 s3; simpl; [reflexivity|].
  destruct (Z.eqb_spec (hd 0 s1) (hd 0 s2)) as [E12|N12]; [|lia].
  destruct (Z.eqb_spec (hd 0 s2) (hd 0 s3)) as [E23|N23]; [|lia].
  rewrite E12, E23, Z.eqb_refl. apply IH.
Qed.

Lemma memcmp_memcpy (n : nat) : forall s, memcmp (memcpy s n) s n = 0.
Proof.
  unfold memcpy.
  induction n as [|n IH]; intros s; [reflexivity|].
  destruct s as [|x s]; simpl.
  - apply memcmp_same.
  - rewrite Z.eqb_refl. apply IH.
Qed.

Lemma testbit_above_u8 (f n : Z) :
  0 <= f < 2 ^ 8 -> 8 <= n -> Z.testbit f n = false.
Proof.
  intros Hf Hn.
  destruct (Z.eq_dec f 0) as [->|Hnz]; [apply Z.bits_0|].
  apply Z.bits_above_log2; [lia|].
  assert (Z.log2 f < 8) by (apply Z.log2_lt_pow2; lia). lia.
Qed.

(** ORing a flag into a [u8] flag byte changes nothing outside that
    flag. *)
Lemma u8_lor_masked (f iv : Z) :
  0 <= f < 2 ^ 8 ->
  Z.land (u8 (Z.lor f iv)) (Z.lnot iv) = Z.land f (Z.lnot iv).
Proof.
  intros Hf. unfold u8. rewrite <- Z.land_ones by lia.
  apply Z.bits_inj'. intros n Hn.
  rewrite !Z.land_spec, Z.lor_spec, Z.lnot_spec, Z.testbit_ones_nonneg
    by lia.
  destruct (Z.testbit iv n); cbn [negb];
    [rewrite !andb_false_r; reflexivity|].
  rewrite orb_false_r, !andb_true_r.
  destruct (Z.ltb_spec n 8) as [Hlt|Hge]; [apply andb_true_r|].
  rewrite (testbit_above_u8 f n Hf Hge). reflexivity.
Qed.

(** A flag bit outside the mask that differs keeps the masked flags
    apart. *)
Lemma masked_flags_differ (f1 f2 mask n : Z) :
  0 <= n ->
  Z.testbit mask n = false ->
  Z.testbit f1 n <> Z.testbit f2 n ->
  (Z.land f1 (Z.lnot mask) =? Z.land f2 (Z.lnot mask)) = false.
Proof.
  intros Hn Hmask Hdiff. apply Z.eqb_neq. intros Heq.
  apply Hdiff.
  assert (Hbit : Z.testbit (Z.land f1 (Z.lnot mask)) n
                 = Z.testbit (Z.land f2 (Z.lnot mask)) n)
    by (rewrite Heq; reflexivity).
  rewrite !Z.land_spec, Z.lnot_spec, Hmask in Hbit by lia.
  cbn [negb] in Hbit. rewrite !andb_true_r in Hbit. exact Hbit.
Qed.

(** ** The permitted-context check, both infos resolved *)

Lemma has_permitted_context_resolved d parent child parent' child' pci cci :
  S_ISREG (i_mode child) || S_ISDIR (i_mode child) || S_ISLNK (i_mode child)
  = true ->
  IS_ENCRYPTED parent = true ->
  IS_ENCRYPTED child = true ->
  fscrypt_get_encryption_info d parent = (0, parent') ->
  fscrypt_get_encryption_info d child = (0, child') ->
  i_crypt_info parent' = Some pci ->
  i_crypt_info child' = Some cci ->
  fscrypt_has_permitted_context d parent child
  = b2z (crypt_infos_same_policy pci cci).
Proof.
  intros Hty Hp Hc Hgp Hgc Hpi Hci.
  rewrite (has_permitted_context_both_encrypted d parent child Hty Hp Hc).
  rewrite Hgp, Hgc, Hpi, Hci. reflexivity.
Qed.

(** X1: the two parent-versus-child comparisons of the permitted-context
    check are reflexive and transitive (with their symmetry: equivalence
    relations), so "same policy as the parent" carries along a chain of
    directories to every descendant. *)
Theorem permitted_context_comparators_equivalence :
  (forall a : fscrypt_info, crypt_infos_same_policy a a = true)
  /\ (forall a b c : fscrypt_info,
         crypt_infos_same_policy a b = true ->
         crypt_infos_same_policy b c = true ->
         crypt_infos_same_policy a c = true)
  /\ (forall a : fscrypt_context, contexts_same_policy a a = true)
  /\ (forall a b c : fscrypt_context,
         contexts_same_policy a b = true ->
         contexts_same_policy b c = true ->
         contexts_same_policy a c = true).
Proof.
  repeat split.
  - intros a. unfold crypt_infos_same_policy.
    rewrite memcmp_same, !Z.eqb_refl. reflexivity.
  - intros a b c. unfold crypt_infos_same_policy.
    rewrite !andb_true_iff, !Z.eqb_eq.
    intros [[[Hd1 Hm1] Hf1] Hl1] [[[Hd2 Hm2] Hf2] Hl2].
    repeat split; try congruence.
    apply (memcmp_zero_trans _ _ _ _ Hd1 Hd2).
  - intros a. unfold contexts_same_policy.
    rewrite memcmp_same, !Z.eqb_refl. reflexivity.
  - intros a b c. unfold contexts_same_policy.
    rewrite !andb_true_iff, !Z.eqb_eq.
    intros [[[Hd1 Hm1] Hf1] Hl1] [[[Hd2 Hm2] Hf2] Hl2].
    repeat split; try congruence.
    apply (memcmp_zero_trans _ _ _ _ Hd1 Hd2).
Qed.

(** X2: the mask of the permitted-context check hides the IV_INO_LBLK_32
    flag and nothing else: with both infos resolved, parent and child
    encrypted, a flag bit outside IV_INO_LBLK_32 that is set on one side and
    clear on the other makes the check answer 0. *)
Theorem has_permitted_context_other_flag_forbidden :
  forall (d : disk) (parent child parent' child' : inode)
         (pci cci : fscrypt_info) (n : Z),
    S_ISREG (i_mode child) || S_ISDIR (i_mode child)
    || S_ISLNK (i_mode child) = true ->
    IS_ENCRYPTED parent = true ->
    IS_ENCRYPTED child = true ->
    fscrypt_get_encryption_info d parent = (0, parent') ->
    fscrypt_get_encryption_info d child = (0, child') ->
    i_crypt_info parent' = Some pci ->
    i_crypt_info child' = Some cci ->
    0 <= n ->
    Z.testbit FS_POLICY_FLAG_IV_INO_LBLK_32 n = false ->
    Z.testbit (ci_flags pci) n <> Z.testbit (ci_flags cci) n ->
    fscrypt_has_permitted_context d parent child = 0.
Proof.
  intros d parent child parent' child' pci cci n
         Hty Hp Hc Hgp Hgc Hpi Hci Hn Hmask Hdiff.
  rewrite (has_permitted_context_resolved d parent child parent' child'
             pci cci Hty Hp Hc Hgp Hgc Hpi Hci).
  unfold crypt_infos_same_policy.
  rewrite (masked_flags_differ _ _ _ n Hn Hmask Hdiff).
  rewrite andb_false_r. reflexivity.
Qed.

(** X3: a child created by inherit-context is permitted in its parent.
    When inherit-context succeeds for a parent whose info has its flags in
    [u8] range, and resolving the child afterwards yields an info carrying
    the policy fields of the context that was stored for it, the
    permitted-context check answers 1 -- also when the IV_INO_LBLK_32 flag
    was forced on the child and the parent lacks it. *)
Theorem inherited_child_is_permitted :
  forall (d d' : disk) (parent child child_now parent0 parent' child' : inode)
         (fs_data : option Z) (nonce : list Z) (r0 : Z)
         (ci cci : fscrypt_info),
    fscrypt_get_encryption_info d parent = (r0, parent0) ->
    i_crypt_info parent0 = Some ci ->
    0 <= ci_flags ci < 2 ^ 8 ->
    fscrypt_inherit_context d parent child fs_data false nonce = (0, d') ->
    S_ISREG (i_mode child_now) || S_ISDIR (i_mode child_now)
    || S_ISLNK (i_mode child_now) = true ->
    IS_ENCRYPTED parent = true ->
    IS_ENCRYPTED child_now = true ->
    fscrypt_get_encryption_info d' parent = (0, parent') ->
    i_crypt_info parent' = Some ci ->
    fscrypt_get_encryption_info d' child_now = (0, child') ->
    i_crypt_info child' = Some cci ->
    (forall ctx : fscrypt_context,
        set_context (s_cop (i_sb parent0)) d child ctx
                    sizeof_fscrypt_context fs_data = (0, d') ->
        ci_master_key_descriptor cci = Ctx.master_key_descriptor ctx
        /\ ci_data_mode cci = Ctx.contents_encryption_mode ctx
        /\ ci_filename_mode cci = Ctx.filenames_encryption_mode ctx
        /\ ci_flags cci = Ctx.flags ctx) ->
    fscrypt_has_permitted_context d' parent child_now = 1.
Proof.
  intros d d' parent child child_now parent0 parent' child' fs_data nonce r0
         ci cci Hget0 Hci0 Hfl Hinh Hty Hp Hc Hgp Hpi Hgc Hcci Hres.
  rewrite (has_permitted_context_resolved d' parent child_now parent' child'
             ci cci Hty Hp Hc Hgp Hgc Hpi Hcci).
  unfold fscrypt_inherit_context in Hinh. rewrite Hget0 in Hinh.
  destruct (Z.ltb_spec r0 0) as [Hneg|_]; [injection Hinh as Hr _; lia|].
  rewrite Hci0 in Hinh.
  match type of Hinh with
  | context [set_context ?c d child ?ctx ?sz fs_data] =>
      destruct (set_context c d child ctx sz fs_data) as [r1 d1] eqn:Hset;
      specialize (Hres ctx)
  end.
  destruct (Z.eqb_spec r1 0) as [Hr1|Hr1]; cbn [negb] in Hinh;
    [|injection Hinh as Hr _; contradiction].
  injection Hinh as Hd. subst r1 d1.
  destruct (Hres Hset) as (Hdesc & Hmode & Hfn & Hflag).
  cbn [Ctx.master_key_descriptor Ctx.contents_encryption_mode
       Ctx.filenames_encryption_mode Ctx.flags] in Hdesc, Hmode, Hfn, Hflag.
  unfold crypt_infos_same_policy.
  rewrite Hdesc, Hmode, Hfn, Hflag, !Z.eqb_refl.
  rewrite memcmp_zero_sym, memcmp_memcpy. cbn [Z.eqb andb].
  destruct ((ci_data_mode ci =? FS_ENCRYPTION_MODE_PRIVATE)
            && fscrypt_force_iv_ino_lblk_32).
  - rewrite (u8_lor_masked _ _ Hfl), Z.eqb_refl. reflexivity.
  - rewrite Z.eqb_refl. reflexivity.
Qed.

(** ** fscrypt_ioctl_set_policy on a target without context *)

Lemma set_policy_fresh d filp policy nonce ctx :
  inode_owner_or_capable (file_inode filp) = true ->
  Policy.version policy = 0 ->
  mnt_want_write_file filp = 0 ->
  get_context (s_cop (i_sb (file_inode filp))) d (file_inode filp)
              sizeof_fscrypt_context = (- ENODATA, ctx) ->
  fscrypt_ioctl_set_policy d filp (Some policy) nonce =
  if negb (S_ISDIR (i_mode (file_inode filp))) then (- ENOTDIR, d)
  else if IS_DEADDIR (file_inode filp) then (- ENOENT, d)
  else if negb (empty_dir (s_cop (i_sb (file_inode filp))) d (file_inode filp))
  then (- ENOTEMPTY, d)
  else create_encryption_context_from_policy d (file_inode filp) policy nonce.
Proof.
  intros Hown Hver Hmnt Hget.
  unfold fscrypt_ioctl_set_policy.
  rewrite Hown, Hver, Hmnt, Hget. reflexivity.
Qed.

(** What [create_encryption_context_from_policy] does, case by case. *)
Lemma create_context_cases d inode policy nonce :
  create_encryption_context_from_policy d inode policy nonce = (- EINVAL, d)
  \/ (fscrypt_valid_enc_modes (Policy.contents_encryption_mode policy)
        (Policy.filenames_encryption_mode policy) = true
      /\ Z.land (Policy.flags policy) (Z.lnot FS_POLICY_FLAGS_VALID) = 0
      /\ (Z.land (Policy.flags policy) FS_POLICY_FLAG_IV_INO_LBLK_32 <> 0 ->
          Policy.contents_encryption_mode policy = FS_ENCRYPTION_MODE_PRIVATE)
      /\ create_encryption_context_from_policy d inode policy nonce
         = set_context (s_cop (i_sb inode)) d inode
             (Ctx.mk FS_ENCRYPTION_CONTEXT_FORMAT_V1
                (u8 (fscrypt_data_crypt_mode
                       inode (Policy.contents_encryption_mode policy)))
                (Policy.filenames_encryption_mode policy)
                (Policy.flags policy)
                (memcpy (Policy.master_key_descriptor policy)
                        FS_KEY_DESCRIPTOR_SIZE)
                (memcpy nonce FS_KEY_DERIVATION_NONCE_SIZE))
             sizeof_fscrypt_context None).
Proof.
  unfold create_encryption_context_from_policy.
  destruct (fscrypt_valid_enc_modes _ _); cbn [negb]; [|left; reflexivity].
  destruct (Z.eqb_spec (Z.land (Policy.flags policy)
                               (Z.lnot FS_POLICY_FLAGS_VALID)) 0)
    as [Hfl|Hfl]; cbn [negb]; [|left; reflexivity].
  destruct (Z.eqb_spec (Z.land (Policy.flags policy)
                               FS_POLICY_FLAG_IV_INO_LBLK_32) 0) as [Hiv|Hiv];
    destruct (Z.eqb_spec (Policy.contents_encryption_mode policy)
                         FS_ENCRYPTION_MODE_PRIVATE) as [Hm|Hm];
    cbn [negb andb]; try (left; reflexivity);
    right; repeat split; auto; intros; contradiction.
Qed.

Ltac errno_absurd H :=
  injection H as H _;
  unfold ENOTDIR, ENOENT, ENOTEMPTY, EINVAL, EEXIST in H; lia.

(** X4: set-policy is idempotent.  When a set-policy call has succeeded,
    the storage reads back for the target what was written to it, and the
    content mode the helper stores for the declared mode is that mode or,
    on a capable filesystem, the hardware-private one, a second call with
    the same policy succeeds again and leaves the storage as the first call
    left it. *)
Theorem set_policy_twice_same_policy :
  forall (d d' : disk) (filp : file) (policy : fscrypt_policy)
         (nonce nonce' : list Z),
    inode_owner_or_capable (file_inode filp) = true ->
    Policy.version policy = 0 ->
    mnt_want_write_file filp = 0 ->
    fscrypt_ioctl_set_policy d filp (Some policy) nonce = (0, d') ->
    (forall ctx : fscrypt_context,
        set_context (s_cop (i_sb (file_inode filp))) d (file_inode filp) ctx
                    sizeof_fscrypt_context None = (0, d') ->
        get_context (s_cop (i_sb (file_inode filp))) d' (file_inode filp)
                    sizeof_fscrypt_context = (sizeof_fscrypt_context, ctx)) ->
    u8 (fscrypt_data_crypt_mode (file_inode filp)
          (Policy.contents_encryption_mode policy))
    = Policy.contents_encryption_mode policy
    \/ (hie_is_capable (i_sb (file_inode filp)) = true
        /\ u8 (fscrypt_data_crypt_mode (file_inode filp)
                 (Policy.contents_encryption_mode policy))
           = FS_ENCRYPTION_MODE_PRIVATE) ->
    fscrypt_ioctl_set_policy d' filp (Some policy) nonce' = (0, d').
Proof.
  intros d d' filp policy nonce nonce' Hown Hver Hmnt Hfirst Hback Hmode.
  assert (Hsz : sizeof_fscrypt_context <> - ENODATA) by discriminate.
  destruct (get_context (s_cop (i_sb (file_inode filp))) d (file_inode filp)
                        sizeof_fscrypt_context) as [ret ctx0] eqn:Hget.
  destruct (Z.eq_dec ret (- ENODATA)) as [->|Hret].
  - rewrite (set_policy_fresh d filp policy nonce ctx0 Hown Hver Hmnt Hget)
      in Hfirst.
    destruct (S_ISDIR (i_mode (file_inode filp))); cbn [negb] in Hfirst;
      [|errno_absurd Hfirst].
    destruct (IS_DEADDIR (file_inode filp)); [errno_absurd Hfirst|].
    destruct (empty_dir _ d (file_inode filp)); cbn [negb] in Hfirst;
      [|errno_absurd Hfirst].
    destruct (create_context_cases d (file_inode filp) policy nonce)
      as [Hbad|(_ & _ & _ & Hset)].
    + rewrite Hbad in Hfirst. errno_absurd Hfirst.
    + rewrite Hset in Hfirst. apply Hback in Hfirst.
      rewrite (set_policy_after_read d' filp policy nonce' _ _
                 Hown Hver Hmnt Hfirst Hsz).
      rewrite Z.eqb_refl. cbn [andb].
      match goal with
      | |- (if ?c then _ else _) = _ =>
          assert (Hc : c = true); [|rewrite Hc; reflexivity]
      end.
      apply consistent_with_policy_spec. unfold consistent_with_policy.
      cbn [Ctx.master_key_descriptor Ctx.filenames_encryption_mode
           Ctx.flags Ctx.contents_encryption_mode].
      repeat split; [apply memcmp_memcpy|exact Hmode].
  - rewrite (set_policy_after_read d filp policy nonce ret ctx0
               Hown Hver Hmnt Hget Hret) in Hfirst.
    destruct ((ret =? sizeof_fscrypt_context)
              && is_encryption_context_consistent_with_policy
                   ctx0 policy (file_inode filp)) eqn:Hsame.
    + injection Hfirst as <-.
      rewrite (set_policy_after_read d filp policy nonce' ret ctx0
                 Hown Hver Hmnt Hget Hret).
      rewrite Hsame. reflexivity.
    + destruct ((0 <=? ret) || (ret =? - ERANGE)) eqn:Hb;
        [errno_absurd Hfirst|].
      apply orb_false_iff in Hb. destruct Hb as [Hneg _].
      apply Z.leb_gt in Hneg. injection Hfirst as Hr _. lia.
Qed.

(** X5: set-policy writes only through
    [create_encryption_context_from_policy], and only for a caller that is
    owner or capable, a policy of version 0, a writable mount, and a target
    whose context read says ENODATA and that is a directory, not dead and
    empty; in every other case the storage is left as it was. *)
Theorem set_policy_writes_only_on_fresh_empty_directory :
  forall (d : disk) (filp : file) (arg : option fscrypt_policy)
         (nonce : list Z),
    snd (fscrypt_ioctl_set_policy d filp arg nonce) = d
    \/ exists policy : fscrypt_policy,
        arg = Some policy
        /\ inode_owner_or_capable (file_inode filp) = true
        /\ Policy.version policy = 0
        /\ mnt_want_write_file filp = 0
        /\ fst (get_context (s_cop (i_sb (file_inode filp))) d
                            (file_inode filp) sizeof_fscrypt_context)
           = - ENODATA
        /\ S_ISDIR (i_mode (file_inode filp)) = true
        /\ IS_DEADDIR (file_inode filp) = false
        /\ empty_dir (s_cop (i_sb (file_inode filp))) d (file_inode filp)
           = true
        /\ fscrypt_ioctl_set_policy d filp arg nonce
           = create_encryption_context_from_policy
               d (file_inode filp) policy nonce.
Proof.
  intros d filp [policy|] nonce; [|left; reflexivity].
  unfold fscrypt_ioctl_set_policy.
  destruct (inode_owner_or_capable (file_inode filp)) eqn:Hown;
    cbn [negb]; [|left; reflexivity].
  destruct (Z.eqb_spec (Policy.version policy) 0) as [Hver|Hver];
    cbn [negb]; [|left; reflexivity].
  destruct (Z.eqb_spec (mnt_want_write_file filp) 0) as [Hmnt|Hmnt];
    cbn [negb]; [|left; reflexivity].
  destruct (get_context (s_cop (i_sb (file_inode filp))) d (file_inode filp)
                        sizeof_fscrypt_context) as [ret ctx0].
  destruct (Z.eqb_spec ret (- ENODATA)) as [Hret|Hret].
  - destruct (S_ISDIR (i_mode (file_inode filp))); cbn [negb];
      [|left; reflexivity].
    destruct (IS_DEADDIR (file_inode filp)); [left; reflexivity|].
    destruct (empty_dir _ d (file_inode filp)); cbn [negb];
      [|left; reflexivity].
    right. exists policy. repeat split; auto.
  - left.
    destruct ((ret =? sizeof_fscrypt_context)
              && is_encryption_context_consistent_with_policy _ _ _);
      [reflexivity|].
    destruct ((0 <=? ret) || (ret =? - ERANGE)); reflexivity.
Qed.

(** X6: on a target without context, set-policy checks in this order and
    writes nothing when a check fails: a target that is not a directory is
    refused with ENOTDIR, a dead directory with ENOENT, a directory that is
    not empty with ENOTEMPTY. *)
Theorem set_policy_fresh_target_errors :
  forall (d : disk) (filp : file) (policy : fscrypt_policy) (nonce : list Z)
         (ctx : fscrypt_context),
    inode_owner_or_capable (file_inode filp) = true ->
    Policy.version policy = 0 ->
    mnt_want_write_file filp = 0 ->
    get_context (s_cop (i_sb (file_inode filp))) d (file_inode filp)
                sizeof_fscrypt_context = (- ENODATA, ctx) ->
    (S_ISDIR (i_mode (file_inode filp)) = false ->
     fscrypt_ioctl_set_policy d filp (Some policy) nonce = (- ENOTDIR, d))
    /\ (S_ISDIR (i_mode (file_inode filp)) = true ->
        IS_DEADDIR (file_inode filp) = true ->
        fscrypt_ioctl_set_policy d filp (Some policy) nonce = (- ENOENT, d))
    /\ (S_ISDIR (i_mode (file_inode filp)) = true ->
        IS_DEADDIR (file_inode filp) = false ->
        empty_dir (s_cop (i_sb (file_inode filp))) d (file_inode filp)
        = false ->
        fscrypt_ioctl_set_policy d filp (Some policy) nonce
        = (- ENOTEMPTY, d)).
Proof.
  intros d filp policy nonce ctx Hown Hver Hmnt Hget.
  rewrite (set_policy_fresh d filp policy nonce ctx Hown Hver Hmnt Hget).
  repeat split.
  - intros ->. reflexivity.
  - intros -> ->. reflexivity.
  - intros -> -> ->. reflexivity.
Qed.

(** X7: set-policy refuses before it reads anything: a faulting user
    pointer gives EFAULT; a caller that is neither owner nor capable gives
    EACCES whatever the policy says; then a version other than 0 gives
    EINVAL; then a failure to get write access to the mount is returned as
    it is.  The storage is untouched in each case. *)
Theorem set_policy_rejected_before_reading :
  forall (d : disk) (filp : file) (nonce : list Z),
    fscrypt_ioctl_set_policy d filp None nonce = (- EFAULT, d)
    /\ (forall policy : fscrypt_policy,
           inode_owner_or_capable (file_inode filp) = false ->
           fscrypt_ioctl_set_policy d filp (Some policy) nonce
           = (- EACCES, d))
    /\ (forall policy : fscrypt_policy,
           inode_owner_or_capable (file_inode filp) = true ->
           Policy.version policy <> 0 ->
           fscrypt_ioctl_set_policy d filp (Some policy) nonce
           = (- EINVAL, d))
    /\ (forall policy : fscrypt_policy,
           inode_owner_or_capable (file_inode filp) = true ->
           Policy.version policy = 0 ->
           mnt_want_write_file filp <> 0 ->
           fscrypt_ioctl_set_policy d filp (Some policy) nonce
           = (mnt_want_write_file filp, d)).
Proof.
  intros d filp nonce. unfold fscrypt_ioctl_set_policy.
  split; [reflexivity|]. repeat split.
  - intros policy ->. reflexivity.
  - intros policy -> Hver. apply Z.eqb_neq in Hver. rewrite Hver.
    reflexivity.
  - intros policy -> -> Hmnt. apply Z.eqb_neq in Hmnt. rewrite Hmnt.
    reflexivity.
Qed.

(** X8: [create_encryption_context_from_policy] stores valid policies only:
    either it answers EINVAL and writes nothing, or the mode pair is valid,
    no flag lies outside FS_POLICY_FLAGS_VALID, the IV_INO_LBLK_32 flag
    comes with the hardware-private mode declared, and the result is that of
    set_context called once with a V1 context carrying the flags, the
    filename mode and the descriptor of the policy and the content mode
    that [fscrypt_data_crypt_mode] gives for the declared one. *)
Theorem create_context_stores_valid_policies_only :
  forall (d : disk) (inode : inode) (policy : fscrypt_policy)
         (nonce : list Z),
    create_encryption_context_from_policy d inode policy nonce
    = (- EINVAL, d)
    \/ exists ctx : fscrypt_context,
        fscrypt_valid_enc_modes (Policy.contents_encryption_mode policy)
          (Policy.filenames_encryption_mode policy) = true
        /\ Z.land (Ctx.flags ctx) (Z.lnot FS_POLICY_FLAGS_VALID) = 0
        /\ (Z.land (Ctx.flags ctx) FS_POLICY_FLAG_IV_INO_LBLK_32 <> 0 ->
            Policy.contents_encryption_mode policy
            = FS_ENCRYPTION_MODE_PRIVATE)
        /\ Ctx.format ctx = FS_ENCRYPTION_CONTEXT_FORMAT_V1
        /\ Ctx.flags ctx = Policy.flags policy
        /\ Ctx.contents_encryption_mode ctx
           = u8 (fscrypt_data_crypt_mode
                   inode (Policy.contents_encryption_mode policy))
        /\ Ctx.filenames_encryption_mode ctx
           = Policy.filenames_encryption_mode policy
        /\ memcmp (Ctx.master_key_descriptor ctx)
                  (Policy.master_key_descriptor policy)
                  FS_KEY_DESCRIPTOR_SIZE = 0
        /\ create_encryption_context_from_policy d inode policy nonce
           = set_context (s_cop (i_sb inode)) d inode ctx
                         sizeof_fscrypt_context None.
Proof.
  intros d inode policy nonce.
  destruct (create_context_cases d inode policy nonce)
    as [Hbad|(Hvalid & Hfl & Hiv & Hset)]; [left; exact Hbad|].
  right. eexists (Ctx.mk _ _ _ _ _ _).
  cbn [Ctx.format Ctx.flags Ctx.filenames_encryption_mode
       Ctx.contents_encryption_mode Ctx.master_key_descriptor].
  repeat split; try eassumption; try reflexivity.
  apply memcmp_memcpy.
Qed.

(** ** fscrypt_ioctl_get_policy *)

(** X9: get-policy copies a policy out only when it succeeds.  Whatever it
    returns, either nothing was copied out and the result is an error of
    the call (ENODATA, EINVAL, EFAULT) or the negative result of the read,
    or the result is 0, the object is encrypted, the read returned a
    full-size V1 record, and the policy copied out has version 0 and the
    filename mode, the flags and the descriptor of that record; the nonce
    is no part of it. *)
Theorem get_policy_copies_out_only_on_success :
  forall (d : disk) (filp : file) (arg_ok : bool) (r : Z)
         (out : option fscrypt_policy),
    fscrypt_ioctl_get_policy d filp arg_ok = (r, out) ->
    (out = None
     /\ (r = - ENODATA \/ r = - EINVAL \/ r = - EFAULT
         \/ (r < 0
             /\ r = fst (get_context (s_cop (i_sb (file_inode filp))) d
                                     (file_inode filp)
                                     sizeof_fscrypt_context))))
    \/ exists (policy : fscrypt_policy) (ctx : fscrypt_context),
        out = Some policy
        /\ r = 0
        /\ arg_ok = true
        /\ IS_ENCRYPTED (file_inode filp) = true
        /\ get_context (s_cop (i_sb (file_inode filp))) d (file_inode filp)
                       sizeof_fscrypt_context = (sizeof_fscrypt_context, ctx)
        /\ Ctx.format ctx = FS_ENCRYPTION_CONTEXT_FORMAT_V1
        /\ Policy.version policy = 0
        /\ Policy.filenames_encryption_mode policy
           = Ctx.filenames_encryption_mode ctx
        /\ Policy.flags policy = Ctx.flags ctx
        /\ Policy.master_key_descriptor policy
           = memcpy (Ctx.master_key_descriptor ctx) FS_KEY_DESCRIPTOR_SIZE.
Proof.
  intros d filp arg_ok r out. unfold fscrypt_ioctl_get_policy.
  destruct (IS_ENCRYPTED (file_inode filp)) eqn:Henc; cbn [negb];
    [|intros [= <- <-]; left; auto].
  destruct (get_context (s_cop (i_sb (file_inode filp))) d (file_inode filp)
                        sizeof_fscrypt_context) as [res ctx].
  cbn [fst].
  destruct ((res <? 0) && negb (res =? - ERANGE)) eqn:Herr.
  { apply andb_true_iff in Herr. destruct Herr as [Hneg _].
    apply Z.ltb_lt in Hneg.
    intros [= <- <-]. left. split; [reflexivity|].
    right. right. right. split; [exact Hneg|reflexivity]. }
  destruct (Z.eqb_spec res sizeof_fscrypt_context) as [Hsz|Hsz];
    cbn [negb]; [|intros [= <- <-]; left; auto].
  destruct (Z.eqb_spec (Ctx.format ctx) FS_ENCRYPTION_CONTEXT_FORMAT_V1)
    as [Hfmt|Hfmt]; cbn [negb]; [|intros [= <- <-]; left; auto].
  destruct arg_ok; cbn [negb]; intros [= <- <-]; [|left; auto 6].
  right. subst res. do 2 eexists. repeat split; auto.
Qed.

(** X10: how get-policy turns failures into results: an object that is not
    encrypted gives ENODATA without a read; a read error other than ERANGE
    is returned as it is; ERANGE and any read of another size than a full
    record give EINVAL; a full-size record of a format other than V1 gives
    EINVAL; a user buffer that cannot be written gives EFAULT. *)
Theorem get_policy_errors :
  forall (d : disk) (filp : file) (arg_ok : bool),
    (IS_ENCRYPTED (file_inode filp) = false ->
     fscrypt_ioctl_get_policy d filp arg_ok = (- ENODATA, None))
    /\ (forall (res : Z) (ctx : fscrypt_context),
           IS_ENCRYPTED (file_inode filp) = true ->
           get_context (s_cop (i_sb (file_inode filp))) d (file_inode filp)
                       sizeof_fscrypt_context = (res, ctx) ->
           (res < 0 -> res <> - ERANGE ->
            fscrypt_ioctl_get_policy d filp arg_ok = (res, None))
           /\ (res = - ERANGE
               \/ (0 <= res /\ res <> sizeof_fscrypt_context) ->
               fscrypt_ioctl_get_policy d filp arg_ok = (- EINVAL, None))
           /\ (res = sizeof_fscrypt_context ->
               Ctx.format ctx <> FS_ENCRYPTION_CONTEXT_FORMAT_V1 ->
               fscrypt_ioctl_get_policy d filp arg_ok = (- EINVAL, None))
           /\ (res = sizeof_fscrypt_context ->
               Ctx.format ctx = FS_ENCRYPTION_CONTEXT_FORMAT_V1 ->
               arg_ok = false ->
               fscrypt_ioctl_get_policy d filp arg_ok = (- EFAULT, None))).
Proof.
  intros d filp arg_ok. unfold fscrypt_ioctl_get_policy. split.
  - intros ->. reflexivity.
  - intros res ctx -> ->. cbn [negb]. repeat split.
    + intros Hneg Hr. apply Z.ltb_lt in Hneg. apply Z.eqb_neq in Hr.
      rewrite Hneg, Hr. reflexivity.
    + intros [->|[Hpos Hsz]].
      * reflexivity.
      * apply Z.ltb_ge in Hpos. apply Z.eqb_neq in Hsz.
        rewrite Hpos, Hsz. reflexivity.
    + intros -> Hfmt. apply Z.eqb_neq in Hfmt. cbn [Z.ltb andb].
      rewrite Z.eqb_refl, Hfmt. reflexivity.
    + intros -> Hfmt ->. cbn [Z.ltb andb].
      rewrite Z.eqb_refl, Hfmt. reflexivity.
Qed.

(** X11: what set-policy creates, get-policy reports.  When
    [create_encryption_context_from_policy] has succeeded and the storage
    reads back what was written, get-policy on the (now encrypted) object
    succeeds and reports version 0 and the filename mode, the flags and the
    first 8 descriptor bytes of the policy that was set; the content mode
    reported is the stored one, or AES-256-XTS for a directory whose stored
    mode is not the invalid one. *)
Theorem get_policy_after_create :
  forall (d d' : disk) (inode : inode) (policy : fscrypt_policy)
         (nonce : list Z) (filp' : file),
    create_encryption_context_from_policy d inode policy nonce = (0, d') ->
    IS_ENCRYPTED (file_inode filp') = true ->
    (forall ctx : fscrypt_context,
        set_context (s_cop (i_sb inode)) d inode ctx
                    sizeof_fscrypt_context None = (0, d') ->
        get_context (s_cop (i_sb (file_inode filp'))) d' (file_inode filp')
                    sizeof_fscrypt_context = (sizeof_fscrypt_context, ctx)) ->
    exists reported : fscrypt_policy,
      fscrypt_ioctl_get_policy d' filp' true = (0, Some reported)
      /\ Policy.version reported = 0
      /\ Policy.filenames_encryption_mode reported
         = Policy.filenames_encryption_mode policy
      /\ Policy.flags reported = Policy.flags policy
      /\ Policy.master_key_descriptor reported
         = memcpy (Policy.master_key_descriptor policy) FS_KEY_DESCRIPTOR_SIZE
      /\ Policy.contents_encryption_mode reported
         = (if S_ISDIR (i_mode (file_inode filp'))
               && negb (u8 (fscrypt_data_crypt_mode inode
                              (Policy.contents_encryption_mode policy))
                        =? FS_ENCRYPTION_MODE_INVALID)
            then FS_ENCRYPTION_MODE_AES_256_XTS
            else u8 (fscrypt_data_crypt_mode inode
                       (Policy.contents_encryption_mode policy))).
Proof.
  intros d d' inode policy nonce filp' Hcreate Henc Hback.
  destruct (create_context_cases d inode policy nonce)
    as [Hbad|(_ & _ & _ & Hset)].
  - rewrite Hbad in Hcreate. errno_absurd Hcreate.
  - rewrite Hset in Hcreate. apply Hback in Hcreate.
    eexists. split.
    + apply (get_policy_success d' filp' _ Henc Hcreate). reflexivity.
    + cbn [Policy.version Policy.filenames_encryption_mode Policy.flags
           Policy.master_key_descriptor Policy.contents_encryption_mode
           Ctx.filenames_encryption_mode Ctx.flags
           Ctx.master_key_descriptor Ctx.contents_encryption_mode].
      repeat split.
      unfold memcpy. rewrite firstn_firstn. reflexivity.
Qed.

(** ** fscrypt_inherit_context *)

(** X12: inherit-context writes nothing when the parent has no usable
    info: an error from resolving the info of the parent is returned as it
    is, and a resolution that leaves the parent without info gives ENOKEY;
    the storage is as it was in both cases. *)
Theorem inherit_context_needs_parent_info :
  forall (d : disk) (parent child parent' : inode) (fs_data : option Z)
         (preload : bool) (nonce : list Z) (res : Z),
    fscrypt_get_encryption_info d parent = (res, parent') ->
    (res < 0 ->
     fscrypt_inherit_context d parent child fs_data preload nonce = (res, d))
    /\ (0 <= res ->
        i_crypt_info parent' = None ->
        fscrypt_inherit_context d parent child fs_data preload nonce
        = (- ENOKEY, d)).
Proof.
  intros d parent child parent' fs_data preload nonce res Hget.
  unfold fscrypt_inherit_context. rewrite Hget. split.
  - intros Hneg. apply Z.ltb_lt in Hneg. rewrite Hneg. reflexivity.
  - intros Hpos Hnone. apply Z.ltb_ge in Hpos. rewrite Hpos, Hnone.
    reflexivity.
Qed.

(** X13: the write of inherit-context is not undone.  With the info of the
    parent resolved, inherit-context calls set_context exactly once; its
    failure is returned with the storage as set_context left it and the
    child is not preloaded; after a successful write the result is 0
    without preload and the result of resolving the child with preload --
    an error included -- and the storage holds the write either way. *)
Theorem inherit_context_write_is_committed :
  forall (d : disk) (parent child parent' : inode) (fs_data : option Z)
         (preload : bool) (nonce : list Z) (res : Z) (ci : fscrypt_info),
    fscrypt_get_encryption_info d parent = (res, parent') ->
    0 <= res ->
    i_crypt_info parent' = Some ci ->
    exists (ctx : fscrypt_context) (r : Z) (d' : disk),
      set_context (s_cop (i_sb parent')) d child ctx
                  sizeof_fscrypt_context fs_data = (r, d')
      /\ snd (fscrypt_inherit_context d parent child fs_data preload nonce)
         = d'
      /\ (r <> 0 ->
          fst (fscrypt_inherit_context d parent child fs_data preload nonce)
          = r)
      /\ (r = 0 -> preload = false ->
          fst (fscrypt_inherit_context d parent child fs_data preload nonce)
          = 0)
      /\ (r = 0 -> preload = true ->
          fst (fscrypt_inherit_context d parent child fs_data preload nonce)
          = fst (fscrypt_get_encryption_info d' child)).
Proof.
  intros d parent child parent' fs_data preload nonce res ci Hget Hpos Hci.
  unfold fscrypt_inherit_context. rewrite Hget.
  apply Z.ltb_ge in Hpos. rewrite Hpos, Hci.
  match goal with
  | |- context [set_context ?c d child ?ctx ?sz fs_data] =>
      exists ctx;
      destruct (set_context c d child ctx sz fs_data) as [r d'] eqn:Hset
  end.
  exists r, d'. split; [reflexivity|].
  destruct (Z.eqb_spec r 0) as [Hr|Hr]; cbn [negb].
  - destruct preload; repeat split; intros; try reflexivity;
      try contradiction; try discriminate.
  - repeat split; intros; try reflexivity; contradiction.
Qed.

(** ** fscrypt_set_bio_ctx, fscrypt_key_payload and the two path tests *)


(** X15: the hardware path and the software path exclude each other, and
    a regular file with a resolved info whose content mode is not the
    invalid one is on exactly one of them. *)
Theorem hw_and_sw_encrypt_exclusive :
  forall (file_ino : inode),
    fscrypt_is_hw_encrypt file_ino && fscrypt_is_sw_encrypt file_ino = false
    /\ (forall ci : fscrypt_info,
           S_ISREG (i_mode file_ino) = true ->
           i_crypt_info file_ino = Some ci ->
           ci_data_mode ci <> FS_ENCRYPTION_MODE_INVALID ->
           fscrypt_is_sw_encrypt file_ino
           = negb (fscrypt_is_hw_encrypt file_ino)).
Proof.
  intros file_ino. unfold fscrypt_is_hw_encrypt, fscrypt_is_sw_encrypt.
  split.
  - destruct (S_ISREG (i_mode file_ino)); [|reflexivity].
    destruct (i_crypt_info file_ino) as [ci|]; [|reflexivity].
    cbn [andb].
    destruct (ci_data_mode ci =? FS_ENCRYPTION_MODE_PRIVATE);
      [apply andb_false_r|reflexivity].
  - intros ci -> -> Hvalid. apply Z.eqb_neq in Hvalid. rewrite Hvalid.
    reflexivity.
Qed.

(** X16: what the bind attaches is what the key lookup finds.  For a
    regular file with a hardware-private info: when taking the info
    reference gives an info, the bind returns 0 without the empty-reference
    warning, the request carries the inode number, the superblock and the
    hashed info of the file, and the key payload of the request is the XTS
    key size with the raw key of the attached info; when the reference
    comes back empty, the key payload of the request is ENOKEY. *)
Theorem key_payload_after_bind :
  forall (file_ino : inode) (req : bio) (ci : fscrypt_info),
    S_ISREG (i_mode file_ino) = true ->
    i_crypt_info file_ino = Some ci ->
    ci_data_mode ci = FS_ENCRYPTION_MODE_PRIVATE ->
    exists (marked : bio) (w : list warning),
      fscrypt_set_bio_ctx (Some file_ino) (Some req) = (0, Some marked, w)
      /\ bc_ino (bi_crypt_ctx marked) = i_ino file_ino
      /\ bc_sb (bi_crypt_ctx marked) = Some (i_sb file_ino)
      /\ hashed_info (bi_crypt_ctx marked) = ci_hashed_info ci
      /\ (forall fi : fscrypt_info,
             fscrypt_crypt_info_act ci BIO_BC_INFO_GET = Some fi ->
             ~ In WARN_no_bc_info w
             /\ fscrypt_key_payload (bi_crypt_ctx marked) true
                = (FS_AES_256_XTS_KEY_SIZE, Some (ci_raw_key fi))
             /\ fscrypt_key_payload (bi_crypt_ctx marked) false
                = (FS_AES_256_XTS_KEY_SIZE, None))
      /\ (fscrypt_crypt_info_act ci BIO_BC_INFO_GET = None ->
          forall want_key : bool,
            fscrypt_key_payload (bi_crypt_ctx marked) want_key
            = (- ENOKEY, None)).
Proof.
  intros file_ino req ci Hreg Hci Hmode.
  unfold fscrypt_set_bio_ctx. rewrite Hreg, Hci, Hmode, Z.eqb_refl.
  do 2 eexists. split; [reflexivity|].
  cbn [bi_crypt_ctx bc_ino bc_sb hashed_info bc_info].
  repeat split.
  - rewrite H. intros Hin. apply in_app_or in Hin.
    destruct Hin as [Hin|Hin].
    + destruct (hie_is_capable (i_sb file_ino)); cbn in Hin.
      * exact Hin.
      * destruct Hin as [Hin|Hin]; [discriminate Hin|exact Hin].
    + exact Hin.
  - unfold fscrypt_key_payload. cbn [bc_info bc_key_size]. rewrite H.
    reflexivity.
  - unfold fscrypt_key_payload. cbn [bc_info bc_key_size]. rewrite H.
    reflexivity.
  - intros Hnone want_key.
    unfold fscrypt_key_payload. cbn [bc_info]. rewrite Hnone. reflexivity.
Qed.

(** ** fscrypt_has_permitted_context, before any comparison *)

(** X17: the permitted-context check decides without looking at any
    policy in three cases, in this order: a child that is neither regular
    file, directory nor symlink is permitted anywhere; otherwise any child
    is permitted in a parent that is not encrypted; otherwise a child that
    is not encrypted is forbidden. *)
Theorem has_permitted_context_without_comparison :
  forall (d : disk) (parent child : inode),
    (S_ISREG (i_mode child) || S_ISDIR (i_mode child)
     || S_ISLNK (i_mode child) = false ->
     fscrypt_has_permitted_context d parent child = 1)
    /\ (S_ISREG (i_mode child) || S_ISDIR (i_mode child)
        || S_ISLNK (i_mode child) = true ->
        (IS_ENCRYPTED parent = false ->
         fscrypt_has_permitted_context d parent child = 1)
        /\ (IS_ENCRYPTED parent = true ->
            IS_ENCRYPTED child = false ->
            fscrypt_has_permitted_context d parent child = 0)).
Proof.
  intros d parent child. unfold fscrypt_has_permitted_context.
  destruct (S_ISREG (i_mode child)), (S_ISDIR (i_mode child)),
    (S_ISLNK (i_mode child)); cbn [orb negb andb];
    repeat split; intros; try discriminate; try reflexivity;
    repeat match goal with
           | H : IS_ENCRYPTED _ = _ |- _ => rewrite H; clear H
           end; reflexivity.
Qed.

End MoreFacts.

(** * The further properties at work on the sample kernel *)

(** X1, witness: three infos that differ in the IV_INO_LBLK_32 flag, the
    raw key and the hashed info only. *)
Lemma permitted_context_comparators_equivalence_witness :
  crypt_infos_same_policy (K := machine true true true)
    (info MODE_PRIVATE 0)
    (mk_fscrypt_info MODE_PRIVATE MODE_AES_256_CTS FLAG_IV_INO_LBLK_32
       descriptor [5] 9) = true.
Proof.
  refine (proj1 (proj2 (permitted_context_comparators_equivalence
                          (K := machine true true true)))
                (info MODE_PRIVATE 0) (info MODE_PRIVATE FLAG_IV_INO_LBLK_32)
                _ _ _); reflexivity.
Defined.

(** X2, witness: the child has the DIRECT_KEY bit (0x04), the parent has
    not. *)
Lemma has_permitted_context_other_flag_forbidden_witness :
  fscrypt_has_permitted_context (K := machine true true true) []
    (dir 2 (Some (info MODE_PRIVATE 0))) (reg 3 (Some (info MODE_PRIVATE 4)))
  = 0.
Proof.
  refine (has_permitted_context_other_flag_forbidden
            (K := machine true true true) []
            (dir 2 (Some (info MODE_PRIVATE 0)))
            (reg 3 (Some (info MODE_PRIVATE 4)))
            (dir 2 (Some (info MODE_PRIVATE 0)))
            (reg 3 (Some (info MODE_PRIVATE 4)))
            (info MODE_PRIVATE 0) (info MODE_PRIVATE 4) 2
            _ _ _ _ _ _ _ _ _ _); try reflexivity; discriminate.
Defined.

(** X3, witness: eMMC command queueing, a parent without the flag, a child
    that got it. *)
Lemma inherited_child_is_permitted_witness :
  fscrypt_has_permitted_context (K := machine true true true)
    [(3, (sizeof_fscrypt_context, stored MODE_PRIVATE FLAG_IV_INO_LBLK_32))]
    (dir 2 (Some (info MODE_PRIVATE 0)))
    (reg 3 (Some (info MODE_PRIVATE FLAG_IV_INO_LBLK_32))) = 1.
Proof.
  refine (inherited_child_is_permitted (K := machine true true true)
            []
            [(3, (sizeof_fscrypt_context,
                  stored MODE_PRIVATE FLAG_IV_INO_LBLK_32))]
            (dir 2 (Some (info MODE_PRIVATE 0))) (reg 3 None)
            (reg 3 (Some (info MODE_PRIVATE FLAG_IV_INO_LBLK_32)))
            (dir 2 (Some (info MODE_PRIVATE 0)))
            (dir 2 (Some (info MODE_PRIVATE 0)))
            (reg 3 (Some (info MODE_PRIVATE FLAG_IV_INO_LBLK_32)))
            None nonce 0
            (info MODE_PRIVATE 0) (info MODE_PRIVATE FLAG_IV_INO_LBLK_32)
            _ _ _ _ _ _ _ _ _ _ _ _); try reflexivity.
  - split; [discriminate|reflexivity].
  - intros ctx Hset. injection Hset as Hctx. subst ctx.
    repeat split; reflexivity.
Defined.

(** X4, witness: a first set-policy on an empty directory of a capable
    filesystem, then the same policy again. *)
Lemma set_policy_twice_same_policy_witness :
  fscrypt_ioctl_set_policy (K := machine true true true)
    (one_context (stored MODE_PRIVATE 0)) (mk_file (plain_dir 2))
    (Some (proposed FS_ENCRYPTION_MODE_AES_256_XTS 0)) descriptor
  = (0, one_context (stored MODE_PRIVATE 0)).
Proof.
  refine (set_policy_twice_same_policy (K := machine true true true)
            [] (one_context (stored MODE_PRIVATE 0)) (mk_file (plain_dir 2))
            (proposed FS_ENCRYPTION_MODE_AES_256_XTS 0) nonce descriptor
            _ _ _ _ _ _); try reflexivity.
  - intros ctx Hset. injection Hset as Hctx. subst ctx. reflexivity.
  - right. split; reflexivity.
Defined.

(** X6, witness: a regular file without context. *)
Lemma set_policy_fresh_target_errors_witness :
  fscrypt_ioctl_set_policy (K := machine true true true) []
    (mk_file (reg 3 None)) (Some (proposed MODE_PRIVATE 0)) nonce
  = (- ENOTDIR, []).
Proof.
  refine (proj1 (set_policy_fresh_target_errors (K := machine true true true)
                   [] (mk_file (reg 3 None)) (proposed MODE_PRIVATE 0) nonce
                   no_context _ _ _ _) _); reflexivity.
Defined.

(** X7, witness: a policy of version 1. *)
Lemma set_policy_rejected_before_reading_witness :
  fscrypt_ioctl_set_policy (K := machine true true true) []
    (mk_file (plain_dir 2))
    (Some (Policy.mk 1 MODE_PRIVATE MODE_AES_256_CTS 0 descriptor)) nonce
  = (- EINVAL, []).
Proof.
  refine (proj1 (proj2 (proj2 (set_policy_rejected_before_reading
                                 (K := machine true true true) []
                                 (mk_file (plain_dir 2)) nonce)))
                (Policy.mk 1 MODE_PRIVATE MODE_AES_256_CTS 0 descriptor)
                _ _); [reflexivity|discriminate].
Defined.

(** X9, witness: a directory with a stored hardware-private context. *)
Lemma get_policy_copies_out_only_on_success_witness :
  exists policy : fscrypt_policy,
    fscrypt_ioctl_get_policy (K := machine true true true)
      (one_context (stored MODE_PRIVATE 0)) (mk_file (dir 2 None)) true
    = (0, Some policy)
    /\ Policy.version policy = 0
    /\ Policy.master_key_descriptor policy = descriptor.
Proof.
  destruct (get_policy_copies_out_only_on_success
              (K := machine true true true)
              (one_context (stored MODE_PRIVATE 0)) (mk_file (dir 2 None))
              true 0
              (Some (Policy.mk 0 FS_ENCRYPTION_MODE_AES_256_XTS
                       MODE_AES_256_CTS 0 descriptor))
              eq_refl)
    as [[Hnone _]|(policy & ctx & Hout & _ & _ & _ & Hread & _ & Hver & _
                   & _ & Hdesc)].
  - discriminate Hnone.
  - exists policy. split; [rewrite <- Hout; reflexivity|].
    split; [exact Hver|].
    injection Hread as Hctx. subst ctx. exact Hdesc.
Defined.

(** X10, witness: the read fails with EIO. *)
Lemma get_policy_errors_witness :
  fscrypt_ioctl_get_policy (K := machine true true true)
    [(2, (-5, no_context))] (mk_file (dir 2 None)) true
  = (-5, None).
Proof.
  refine (proj1 (proj2 (get_policy_errors (K := machine true true true)
                          [(2, (-5, no_context))] (mk_file (dir 2 None))
                          true)
                       (-5) no_context _ _) _ _);
    try reflexivity; discriminate.
Defined.

(** X11, witness: a hardware-private policy set on an empty directory of a
    capable filesystem is reported with AES-256-XTS. *)
Lemma get_policy_after_create_witness :
  exists reported : fscrypt_policy,
    fscrypt_ioctl_get_policy (K := machine true true true)
      (one_context (stored MODE_PRIVATE 0)) (mk_file (dir 2 None)) true
    = (0, Some reported)
    /\ Policy.flags reported = 0
    /\ Policy.contents_encryption_mode reported
       = FS_ENCRYPTION_MODE_AES_256_XTS.
Proof.
  destruct (get_policy_after_create (K := machine true true true)
              [] (one_context (stored MODE_PRIVATE 0)) (plain_dir 2)
              (proposed MODE_PRIVATE 0) nonce (mk_file (dir 2 None))
              eq_refl eq_refl
              (fun ctx Hset =>
                 match Hset in _ = p
                       return lookup (snd p) 2
                              = (sizeof_fscrypt_context, ctx)
                 with eq_refl => eq_refl end))
    as (reported & Hret & _ & _ & Hflags & _ & Hmode).
  exists reported. split; [exact Hret|]. split; [exact Hflags|exact Hmode].
Defined.

(** X12, witness: resolving the parent fails with EIO. *)
Lemma inherit_context_needs_parent_info_witness :
  fscrypt_inherit_context (K := machine true true true)
    [(2, (-5, no_context))] (dir 2 None) (reg 3 None) None true nonce
  = (-5, [(2, (-5, no_context))]).
Proof.
  refine (proj1 (inherit_context_needs_parent_info
                   (K := machine true true true)
                   [(2, (-5, no_context))] (dir 2 None) (reg 3 None)
                   (dir 2 None) None true nonce (-5) _) _); reflexivity.
Defined.

(** X13, witness: no preload. *)
Lemma inherit_context_write_is_committed_witness :
  fst (fscrypt_inherit_context (K := machine true true true) []
         (dir 2 (Some (info MODE_PRIVATE 0))) (reg 3 None) None false nonce)
  = 0.
Proof.
  destruct (inherit_context_write_is_committed (K := machine true true true)
              [] (dir 2 (Some (info MODE_PRIVATE 0))) (reg 3 None)
              (dir 2 (Some (info MODE_PRIVATE 0))) None false nonce 0
              (info MODE_PRIVATE 0) eq_refl ltac:(discriminate) eq_refl)
    as (ctx & r & d' & Hset & _ & _ & Hzero & _).
  apply Hzero; [|reflexivity].
  injection Hset as <- _. reflexivity.
Defined.


(** X15, witness: a regular file with an AES-256-XTS info is on the
    software path. *)
Lemma hw_and_sw_encrypt_exclusive_witness :
  fscrypt_is_sw_encrypt (K := machine true true true)
    (reg 3 (Some (info FS_ENCRYPTION_MODE_AES_256_XTS 0)))
  = negb (fscrypt_is_hw_encrypt (K := machine true true true)
            (reg 3 (Some (info FS_ENCRYPTION_MODE_AES_256_XTS 0)))).
Proof.
  refine (proj2 (hw_and_sw_encrypt_exclusive (K := machine true true true)
                   (reg 3 (Some (info FS_ENCRYPTION_MODE_AES_256_XTS 0))))
                (info FS_ENCRYPTION_MODE_AES_256_XTS 0) _ _ _);
    try reflexivity; discriminate.
Defined.

(** X16, witness: taking the info reference succeeds on the sample
    kernel. *)
Lemma key_payload_after_bind_witness :
  exists (marked : bio) (w : list warning),
    fscrypt_set_bio_ctx (K := machine true true true)
      (Some (reg 3 (Some (mk_fscrypt_info MODE_PRIVATE MODE_AES_256_CTS 0
                            descriptor [7; 7] 5))))
      (Some empty_bio)
    = (0, Some marked, w)
    /\ fscrypt_key_payload (bi_crypt_ctx marked) true = (64, Some [7; 7]).
Proof.
  destruct (key_payload_after_bind (K := machine true true true)
              (reg 3 (Some (mk_fscrypt_info MODE_PRIVATE MODE_AES_256_CTS 0
                              descriptor [7; 7] 5)))
              empty_bio
              (mk_fscrypt_info MODE_PRIVATE MODE_AES_256_CTS 0
                 descriptor [7; 7] 5)
              eq_refl eq_refl eq_refl)
    as (marked & w & Hbind & _ & _ & _ & Hsome & _).
  exists marked, w. split; [exact Hbind|].
  exact (proj1 (proj2 (Hsome _ eq_refl))).
Defined.

(** X17, witness: an encrypted fifo in an encrypted directory whose
    context cannot be read. *)
Lemma has_permitted_context_without_comparison_witness :
  fscrypt_has_permitted_context (K := machine true true true)
    [(2, (-5, no_context))] (dir 2 None)
    (mk_inode 4 (4096 + 420) S_ENCRYPTED sb None) = 1.
Proof.
  refine (proj1 (has_permitted_context_without_comparison
                   (K := machine true true true)
                   [(2, (-5, no_context))] (dir 2 None)
                   (mk_inode 4 (4096 + 420) S_ENCRYPTED sb None)) _).
  reflexivity.
Defined.

(** * The fallback comparison and the boot-device hook *)

Section FallbackFacts.

Context {K : kernel}.

(** X18: without both infos, the permitted-context check compares what is
    stored, after translation.  Parent and child encrypted, both
    resolutions without error, one info at least missing, both context
    reads full-size: the check answers 1 exactly when the two stored
    descriptors are byte-equal, the filename modes are equal, the flags are
    equal outside IV_INO_LBLK_32, and the content modes are equal once each
    is passed through [fscrypt_data_crypt_mode] for its own inode; the raw
    stored modes, the format tags and the nonces are not compared. *)
Theorem has_permitted_context_fallback :
  forall (d : disk) (parent child parent' child' : inode)
         (pctx cctx : fscrypt_context),
    S_ISREG (i_mode child) || S_ISDIR (i_mode child)
    || S_ISLNK (i_mode child) = true ->
    IS_ENCRYPTED parent = true ->
    IS_ENCRYPTED child = true ->
    fscrypt_get_encryption_info d parent = (0, parent') ->
    fscrypt_get_encryption_info d child = (0, child') ->
    i_crypt_info parent' = None \/ i_crypt_info child' = None ->
    get_context (s_cop (i_sb parent)) d parent' sizeof_fscrypt_context
    = (sizeof_fscrypt_context, pctx) ->
    get_context (s_cop (i_sb parent)) d child' sizeof_fscrypt_context
    = (sizeof_fscrypt_context, cctx) ->
    (fscrypt_has_permitted_context d parent child = 1
     <-> memcmp (Ctx.master_key_descriptor pctx)
                (Ctx.master_key_descriptor cctx) FS_KEY_DESCRIPTOR_SIZE = 0
         /\ u8 (fscrypt_data_crypt_mode
                  parent' (Ctx.contents_encryption_mode pctx))
            = u8 (fscrypt_data_crypt_mode
                    child' (Ctx.contents_encryption_mode cctx))
         /\ Ctx.filenames_encryption_mode pctx
            = Ctx.filenames_encryption_mode cctx
         /\ Z.land (Ctx.flags pctx) (Z.lnot FS_POLICY_FLAG_IV_INO_LBLK_32)
            = Z.land (Ctx.flags cctx) (Z.lnot FS_POLICY_FLAG_IV_INO_LBLK_32)).
Proof.
  intros d parent child parent' child' pctx cctx
         Hty Hp Hc Hgp Hgc Hnone Hrp Hrc.
  rewrite (has_permitted_context_both_encrypted d parent child Hty Hp Hc).
  rewrite Hgp, Hgc. cbn [Z.eqb negb].
  assert (Hfall :
            match i_crypt_info parent', i_crypt_info child' with
            | Some parent_ci, Some child_ci =>
                b2z (crypt_infos_same_policy parent_ci child_ci)
            | _, _ =>
                b2z (contexts_same_policy
                       (Ctx.set_contents_encryption_mode pctx
                          (u8 (fscrypt_data_crypt_mode parent'
                                 (Ctx.contents_encryption_mode pctx))))
                       (Ctx.set_contents_encryption_mode cctx
                          (u8 (fscrypt_data_crypt_mode child'
                                 (Ctx.contents_encryption_mode cctx)))))
            end
            = b2z (contexts_same_policy
                     (Ctx.set_contents_encryption_mode pctx
                        (u8 (fscrypt_data_crypt_mode parent'
                               (Ctx.contents_encryption_mode pctx))))
                     (Ctx.set_contents_encryption_mode cctx
                        (u8 (fscrypt_data_crypt_mode child'
                               (Ctx.contents_encryption_mode cctx)))))).
  { destruct Hnone as [Hn|Hn]; rewrite Hn;
      [reflexivity|destruct (i_crypt_info parent'); reflexivity]. }
  rewrite Hrp, Hrc, Z.eqb_refl. cbn [negb]. rewrite Hfall.
  unfold contexts_same_policy, Ctx.set_contents_encryption_mode.
  cbn [Ctx.master_key_descriptor Ctx.contents_encryption_mode
       Ctx.filenames_encryption_mode Ctx.flags].
  match goal with
  | |- b2z ?b = 1 <-> _ => destruct b eqn:Hb; cbn [b2z]
  end.
  - rewrite !andb_true_iff, !Z.eqb_eq in Hb. tauto.
  - split; [discriminate|].
    intros (Hd & Hm & Hf & Hl).
    rewrite Hd, Hm, Hf, Hl, !Z.eqb_refl in Hb. discriminate Hb.
Qed.

(** X19: the IV_INO_LBLK_32 flag is forced for an eMMC boot device only.
    When eMMC command queueing is not configured, or the boot device is not
    the SD/MMC one, the hook is off and the context inherit-context stores
    for the child carries exactly the flags of the parent's info, whatever
    the content mode. *)
Theorem inherit_context_flags_verbatim_without_emmc :
  forall (d : disk) (parent child parent' : inode) (fs_data : option Z)
         (preload : bool) (nonce : list Z) (res : Z) (ci : fscrypt_info),
    CONFIG_MTK_EMMC_HW_CQ = false \/ get_boot_type <> BOOTDEV_SDMMC ->
    fscrypt_get_encryption_info d parent = (res, parent') ->
    0 <= res ->
    i_crypt_info parent' = Some ci ->
    fscrypt_force_iv_ino_lblk_32 = false
    /\ exists ctx : fscrypt_context,
        Ctx.flags ctx = ci_flags ci
        /\ Ctx.contents_encryption_mode ctx = ci_data_mode ci
        /\ fscrypt_inherit_context d parent child fs_data preload nonce
           = (let '(r, d') :=
                set_context (s_cop (i_sb parent')) d child ctx
                            sizeof_fscrypt_context fs_data in
              if negb (r =? 0) then (r, d')
              else if preload
                   then (fst (fscrypt_get_encryption_info d' child), d')
                   else (0, d')).
Proof.
  intros d parent child parent' fs_data preload nonce res ci
         Hoff Hget Hpos Hci.
  assert (Hhook : fscrypt_force_iv_ino_lblk_32 = false).
  { unfold fscrypt_force_iv_ino_lblk_32.
    destruct Hoff as [->|Hboot]; [reflexivity|].
    apply Z.eqb_neq in Hboot. rewrite Hboot.
    destruct CONFIG_MTK_EMMC_HW_CQ; reflexivity. }
  split; [exact Hhook|].
  unfold fscrypt_inherit_context. rewrite Hget.
  apply Z.ltb_ge in Hpos. rewrite Hpos, Hci, Hhook, andb_false_r.
  eexists (Ctx.mk _ _ _ _ _ _).
  cbn [Ctx.flags Ctx.contents_encryption_mode].
  repeat split.
Qed.

End FallbackFacts.

(** X18, witness: no keys; the parent stores AES-256-XTS, the child the
    hardware-private mode with the IV_INO_LBLK_32 flag, on a capable
    filesystem. *)
Lemma has_permitted_context_fallback_witness :
  fscrypt_has_permitted_context (K := machine true true true)
    [(2, (sizeof_fscrypt_context, stored FS_ENCRYPTION_MODE_AES_256_XTS 0));
     (3, (sizeof_fscrypt_context, stored MODE_PRIVATE FLAG_IV_INO_LBLK_32))]
    (dir 2 None) (reg 3 None) = 1.
Proof.
  refine (proj2 (has_permitted_context_fallback (K := machine true true true)
                   [(2, (sizeof_fscrypt_context,
                         stored FS_ENCRYPTION_MODE_AES_256_XTS 0));
                    (3, (sizeof_fscrypt_context,
                         stored MODE_PRIVATE FLAG_IV_INO_LBLK_32))]
                   (dir 2 None) (reg 3 None) (dir 2 None) (reg 3 None)
                   (stored FS_ENCRYPTION_MODE_AES_256_XTS 0)
                   (stored MODE_PRIVATE FLAG_IV_INO_LBLK_32)
                   _ _ _ _ _ _ _ _) _); try reflexivity.
  - left. reflexivity.
  - repeat split; reflexivity.
Defined.

(** X19, witness: a UFS boot device: the child of a hardware-private
    parent without the flag is stored without it. *)
Lemma inherit_context_flags_verbatim_without_emmc_witness :
  exists ctx : fscrypt_context,
    Ctx.flags ctx = 0
    /\ Ctx.contents_encryption_mode ctx = MODE_PRIVATE
    /\ fscrypt_inherit_context (K := machine true false true) []
         (dir 2 (Some (info MODE_PRIVATE 0))) (reg 3 None) None false nonce
       = (0, [(3, (sizeof_fscrypt_context, ctx))]).
Proof.
  destruct (inherit_context_flags_verbatim_without_emmc
              (K := machine true false true) []
              (dir 2 (Some (info MODE_PRIVATE 0))) (reg 3 None)
              (dir 2 (Some (info MODE_PRIVATE 0))) None false nonce 0
              (info MODE_PRIVATE 0)
              (or_introl eq_refl) eq_refl ltac:(discriminate) eq_refl)
    as (_ & ctx & Hflags & Hmode & Hcall).
  exists ctx. split; [exact Hflags|]. split; [exact Hmode|exact Hcall].
Defined.
